(** * PIML: the training / evaluation pipeline driver (main.py)

    A shallow embedding of [main.py]: the configuration dictionaries, the
    optimiser and criterion factories, [load_or_generate_data] and [main].

    Python values are dynamically typed, so the embedding carries one type
    of values, [pyobj].  Every function of the repository that [main.py]
    imports from the [training], [PIML] and [LayeredElastic] packages is a
    collaborator reached through one handler [ext]; the driver's own control
    flow, dictionary look-ups, slicing and file accesses are modelled here.
    Floating-point numbers are idealised as rationals: [main.py] itself does
    no arithmetic on them. *)

From Stdlib Require Import ZArith QArith List String Bool Lia.
From stdpp Require Import base option list strings gmap.

Set Warnings "-register-all".

Local Open Scope Z_scope.
Local Open Scope string_scope.
Local Open Scope list_scope.

(** ** Python values *)

Inductive pyobj : Type :=
| PyNone
| PyBool (b : bool)
| PyInt (z : Z)
| PyFloat (q : Q)
| PyStr (s : string)
| PyList (l : list pyobj)
| PyTuple (l : list pyobj)
| PyFrame (columns : list string) (rows : list (list pyobj))
| PyArray (rows : list (list pyobj))
| PyObj (cls : string) (fields : list pyobj).

(** Exceptions raised by the driver or by a collaborator. *)
Inductive exn : Type :=
| ValueError (msg : string)
| KeyError (key : string)
| IndexError (msg : string)
| TypeError (msg : string)
| AttributeError (msg : string)
| FileNotFoundError (path : string)
| NotFittedError (msg : string)
| OtherError (cls msg : string).

(** A value or the exception raised instead. *)
#[global] Instance result_ret : MRet (sum exn) := fun A a => inr a.
#[global] Instance result_bind : MBind (sum exn) := fun A B k r =>
  match r with
  | inl e => inl e
  | inr a => k a
  end.

(** ** The world the driver runs in *)

Inductive Event : Type :=
| EvMkdir (path : string)
| EvLoad (path : string)
| EvDump (path : string) (o : pyobj)
| EvPrint (o : pyobj)
| EvCall (fn : string) (args : list pyobj) (kwargs : list (string * pyobj)).

Record World : Type := mkWorld {
  disk : gmap string pyobj;   (* the pickle files that can be read, by path,
                                 each with the object it holds *)
  rng : Z;                    (* the process-wide random generator state *)
  log : list Event            (* what the driver did, oldest first *)
}.

(** What a collaborator answers: a value or an exception, and the disk and
    generator state it leaves behind.  A collaborator never sees the log. *)
Record Reply : Type := mkReply {
  reply_val : exn + pyobj;
  reply_disk : gmap string pyobj;
  reply_rng : Z
}.

Definition Ext : Type :=
  string -> list pyobj -> list (string * pyobj) -> gmap string pyobj -> Z -> Reply.

(** sklearn's StandardScaler: the statistics [fit] computes and the map
    [transform] applies with them. *)
Record Sklearn : Type := mkSklearn {
  std_fit : pyobj -> exn + pyobj;
  std_apply : pyobj -> pyobj -> exn + pyobj
}.

(** ** State and exception monad *)

Definition M (A : Type) : Type := World -> (exn + A) * World.

#[global] Instance M_ret : MRet M := fun A a w => (inr a, w).
#[global] Instance M_bind : MBind M := fun A B k m w =>
  match m w with
  | (inl e, w') => (inl e, w')
  | (inr a, w') => k a w'
  end.

Definition raise {A : Type} (e : exn) : M A := fun w => (inl e, w).

Definition lift {A : Type} (r : exn + A) : M A := fun w => (r, w).

(** The world after the driver did [l] more. *)
Definition logged (w : World) (l : list Event) : World :=
  {| disk := disk w; rng := rng w; log := log w ++ l |}.

Definition emit (e : Event) : M unit := fun w => (inr tt, logged w [e]).

(** ** Command line *)

Record Args : Type := mkArgs {
  run_analysis : bool;
  mode : option string;
  model : option string;
  data_path : string;
  lr : Q;
  epochs : Z;
  optimizer : string;
  criterion : string;
  log_dir : string;
  model_path : option string
}.

Definition py_of_opt_str (o : option string) : pyobj :=
  match o with Some s => PyStr s | None => PyNone end.

Definition py_of_args (a : Args) : pyobj :=
  PyObj "Namespace"
    [PyBool (run_analysis a); py_of_opt_str (mode a); py_of_opt_str (model a);
     PyStr (data_path a); PyFloat (lr a); PyInt (epochs a);
     PyStr (optimizer a); PyStr (criterion a); PyStr (log_dir a);
     py_of_opt_str (model_path a)].

(** [x == "lit"] for an optional string attribute. *)
Definition opt_str_is (o : option string) (lit : string) : bool :=
  match o with Some s => String.eqb s lit | None => false end.

(** Python truth value of an optional string: [None] and [''] are false. *)
Definition truthy (o : option string) : bool :=
  match o with
  | None => false
  | Some s => negb (String.eqb s "")
  end.

(** ** Constants *)

Definition flt (num : Z) (den : positive) : pyobj := PyFloat (Qmake num den).

Definition ints (l : list Z) : pyobj := PyList (PyInt <$> l).

Definition MATERIAL_CONFIG : gmap string pyobj :=
  list_to_map
    [("N_MATERIALS", PyInt 3);
     ("MATERIAL_TYPES", PyList [PyStr "AC"; PyStr "B"; PyStr "SG"]);
     ("SUBLAYER_MAX", ints [1; 1; 1]);
     ("THICKNESS_RANGE", PyList [ints [2; 16]; ints [4; 20]]);
     ("MODULUS_RANGE", PyList [ints [500; 2000]; ints [50; 300]; ints [5; 50]]);
     ("THICKNESS_INCREMENT", ints [1; 2; 4]);
     ("MODULUS_INCREMENT", ints [50; 20; 20; 5]);
     ("NU_RANGE",
      PyList [PyList [flt 3 10; flt 4 10];
              PyList [flt 2 10; flt 499 1000];
              PyList [flt 2 10; flt 499 1000]])].

Definition SAMPLING_CONFIG : gmap string pyobj :=
  list_to_map
    [("N_POINTS", PyInt 1000);
     ("Z_POINTS", PyInt 14);
     ("X_POINTS", PyInt 10);
     ("A_RANGE", ints [4; 4]);
     ("A_POINTS", PyInt 1);
     ("FACTOR", flt 4 10);
     ("FILTER", PyInt 2);
     ("SPLIT_IDX", PyInt 800);
     ("TEST_IDX", PyInt 900);
     ("SEED", PyInt 42)].

Definition MODEL_CONFIG : gmap string pyobj :=
  list_to_map
    [("INPUT_DIM", PyInt 5);
     ("HIDDEN_DIM1", PyInt 128);
     ("HIDDEN_DIM", PyInt 90);
     ("OUTPUT_DIM", PyInt 3);
     ("NUM_LAYERS", PyInt 10)].

(** [d[key]]: a missing key raises KeyError. *)
Definition getitem (d : gmap string pyobj) (key : string) : exn + pyobj :=
  match d !! key with
  | Some v => inr v
  | None => inl (KeyError key)
  end.

(** [{**a, **b}]: the entries of [b] win. *)
Definition dict_merge (a b : gmap string pyobj) : gmap string pyobj := b ∪ a.

(** ** choose_optimizer and get_criterion *)

(** [model.parameters()]: a module object is [PyObj cls fields] with the
    parameters it registered as its fields, and the call lists them; any
    other value has no such method. *)
Definition parameters (model : pyobj) : exn + pyobj :=
  match model with
  | PyObj _ fields => inr (PyList fields)
  | _ => inl (AttributeError "parameters")
  end.

(** [torch.optim.Adam(params, lr=lr)] with the other arguments at their
    defaults: the constructor first refuses a learning rate that is not
    [0.0 <= lr], then collects [list(params)] and refuses an empty list.
    The message of the first error ends with the number, left out here. *)
Definition Adam (params : pyobj) (lr : Q) : exn + pyobj :=
  if negb (Qle_bool 0 lr) then inl (ValueError "Invalid learning rate")
  else
    match params with
    | PyList [] | PyTuple [] =>
        inl (ValueError "optimizer got an empty parameter list")
    | PyList _ | PyTuple _ => inr (PyObj "torch.optim.Adam" [params; PyFloat lr])
    | _ => inl (TypeError "params argument given to the optimizer should be an iterable of Tensors or dicts")
    end.

Definition L1Loss : pyobj := PyObj "torch.nn.L1Loss" [].
Definition MSELoss : pyobj := PyObj "torch.nn.MSELoss" [].

Definition choose_optimizer (model : pyobj) (optimizer_type : string) (lr : Q)
  : exn + pyobj :=
  if String.eqb optimizer_type "Adam" then
    params ← parameters model; Adam params lr
  else inl (ValueError ("Unsupported optimizer type: " +:+ optimizer_type)).

Definition get_criterion (criterion_type : string) : exn + pyobj :=
  if String.eqb criterion_type "L1loss" then inr L1Loss
  else if String.eqb criterion_type "MSE" then inr MSELoss
  else inl (ValueError ("Unsupported criterion type: " +:+ criterion_type)).

(** ** pandas and numpy, as far as the driver uses them *)

(** [l[a:b]] for slice bounds that are not negative. *)
Definition py_slice {A : Type} (a b : Z) (l : list A) : list A :=
  take (Z.to_nat (b - a)) (drop (Z.to_nat a) l).

Definition index_of (name : string) (cols : list string) : option nat :=
  fst <$> list_find (fun c => c = name) cols.

(** The value of a number; [bool] is a subclass of [int]. *)
Definition as_number (o : pyobj) : option Q :=
  match o with
  | PyInt z => Some (inject_Z z)
  | PyFloat q => Some q
  | PyBool b => Some (inject_Z (if b then 1 else 0))
  | _ => None
  end.

(** [a <= b] on numbers. *)
Definition num_le (a b : pyobj) : option bool :=
  x ← as_number a; y ← as_number b; Some (Qle_bool x y).

(** The [i]-th item of a sequence known to be long enough. *)
Definition item (l : list pyobj) (i : nat) : pyobj := default PyNone (l !! i).

(** [frame[col]]: the cells of one column, one per row. *)
Definition column (frame : pyobj) (col : string) : exn + list pyobj :=
  match frame with
  | PyFrame cols rows =>
      match index_of col cols with
      | None => inl (KeyError col)
      | Some idx => inr ((fun r => item r idx) <$> rows)
      end
  | _ => inl (TypeError "not subscriptable")
  end.

(** [series <= k]: the boolean mask, one entry per cell. *)
Definition series_le (cells : list pyobj) (k : pyobj) : exn + list bool :=
  match mapM (M := option) (fun c => num_le c k) cells with
  | Some mask => inr mask
  | None => inl (TypeError "'<=' not supported")
  end.

(** The rows whose mask entry is true, in order. *)
Fixpoint select_rows (mask : list bool) (rows : list (list pyobj))
  : list (list pyobj) :=
  match mask, rows with
  | b :: mask', r :: rows' =>
      if b then r :: select_rows mask' rows' else select_rows mask' rows'
  | _, _ => []
  end.

(** [frame.loc]: the indexer of a DataFrame, here the frame itself. *)
Definition loc (frame : pyobj) : exn + pyobj :=
  match frame with
  | PyFrame cols rows => inr frame
  | _ => inl (AttributeError "loc")
  end.

(** [indexer[mask]] *)
Definition loc_getitem (indexer : pyobj) (mask : list bool) : exn + pyobj :=
  match indexer with
  | PyFrame cols rows => inr (PyFrame cols (select_rows mask rows))
  | _ => inl (TypeError "not subscriptable")
  end.

(** [frame[[n1, n2, ...]]]: the named columns, in the order asked. *)
Definition select_cols (frame : pyobj) (names : list string) : exn + pyobj :=
  match frame with
  | PyFrame cols rows =>
      match mapM (M := option) (fun n => index_of n cols) names with
      | None => inl (KeyError "not in index")
      | Some idxs =>
          inr (PyFrame names
                 ((fun r : list pyobj => (fun i : nat => item r i) <$> idxs) <$> rows))
      end
  | _ => inl (TypeError "not subscriptable")
  end.

(** [frame.iloc[r0:r1, c0:c1].values] *)
Definition iloc_values (frame : pyobj) (r0 r1 c0 c1 : Z) : exn + pyobj :=
  match frame with
  | PyFrame cols rows => inr (PyArray (py_slice c0 c1 <$> py_slice r0 r1 rows))
  | _ => inl (AttributeError "iloc")
  end.

(** The characters of a string, each a string of length one. *)
Fixpoint chars (s : string) : list pyobj :=
  match s with
  | EmptyString => []
  | String c s' => PyStr (String c EmptyString) :: chars s'
  end.

(** What iterating over a value yields; [None] when it is not iterable.
    A frame yields its column labels, an array its rows. *)
Definition iterate (o : pyobj) : option (list pyobj) :=
  match o with
  | PyTuple l | PyList l => Some l
  | PyStr s => Some (chars s)
  | PyArray rows => Some (PyList <$> rows)
  | PyFrame cols _ => Some (PyStr <$> cols)
  | _ => None
  end.

(** [seq[0]] *)
Definition getitem0 (o : pyobj) : exn + pyobj :=
  match o with
  | PyFrame _ _ => inl (KeyError "0")
  | _ =>
      match iterate o with
      | Some (x :: _) => inr x
      | Some [] => inl (IndexError "index out of range")
      | None => inl (TypeError "not subscriptable")
      end
  end.

(** The items a tuple assignment with [n] targets binds. *)
Definition unpack (n : nat) (o : pyobj) : exn + list pyobj :=
  match iterate o with
  | Some l =>
      if decide (length l = n) then inr l
      else inl (ValueError "wrong number of values to unpack")
  | None => inl (TypeError "cannot unpack non-iterable object")
  end.

(** ** StandardScaler objects: [None] until fitted *)

Definition StandardScaler : option pyobj := None.

Section Scaler.
Context (sk : Sklearn).

Definition fit_transform (self : option pyobj) (X : pyobj)
  : exn + (pyobj * option pyobj) :=
  match std_fit sk X with
  | inl e => inl e
  | inr p =>
      match std_apply sk p X with
      | inl e => inl e
      | inr X' => inr (X', Some p)
      end
  end.

Definition transform (self : option pyobj) (X : pyobj) : exn + pyobj :=
  match self with
  | None => inl (NotFittedError "This StandardScaler instance is not fitted yet.")
  | Some p => std_apply sk p X
  end.
End Scaler.

(** ** The driver *)

(** [Path(dir) / name] and [f'{dir}/name']. *)
Definition path_join (dir name : string) : string := dir +:+ "/" +:+ name.

(** [d1[k1], d2[k2], ...] evaluated left to right. *)
Fixpoint getitems (l : list (gmap string pyobj * string)) : exn + list pyobj :=
  match l with
  | [] => inr []
  | (d, k) :: l' =>
      match getitem d k with
      | inl e => inl e
      | inr v =>
          match getitems l' with
          | inl e => inl e
          | inr vs => inr (v :: vs)
          end
      end
  end.

(** [data_path.mkdir(parents=True, exist_ok=True)] *)
Definition mkdir (path : string) : M unit := emit (EvMkdir path).

(** [with open(path, 'rb') as fp: pickle.load(fp)].  The disk holds the
    files that unpickle; a file that exists but cannot be unpickled is
    outside the model. *)
Definition pickle_load (path : string) : M pyobj := fun w =>
  match disk w !! path with
  | Some o => (inr o, logged w [EvLoad path])
  | None => (inl (FileNotFoundError path), w)
  end.

(** [with open(path, 'wb') as fp: pickle.dump(o, fp)] *)
Definition pickle_dump (o : pyobj) (path : string) : M unit := fun w =>
  (inr tt, {| disk := <[path := o]> (disk w); rng := rng w;
              log := log w ++ [EvDump path o] |}).

Definition print (o : pyobj) : M unit := emit (EvPrint o).

Section Driver.
Context (ext : Ext) (sk : Sklearn).

(** A call of an imported function of the repository. *)
Definition call (fn : string) (args : list pyobj) (kwargs : list (string * pyobj))
  : M pyobj := fun w =>
  let r := ext fn args kwargs (disk w) (rng w) in
  (reply_val r,
   {| disk := reply_disk r; rng := reply_rng r;
      log := log w ++ [EvCall fn args kwargs] |}).

(** main.py, lines 153-168: the generation run of [load_or_generate_data]. *)
Definition generate (config : gmap string pyobj) : M (pyobj * pyobj) :=
  a ← lift (getitems
        [(config, "N_POINTS"); (config, "N_MATERIALS");
         (config, "MATERIAL_TYPES"); (config, "SUBLAYER_MAX");
         (config, "THICKNESS_RANGE"); (config, "MODULUS_RANGE");
         (config, "Z_POINTS"); (config, "X_POINTS");
         (config, "THICKNESS_INCREMENT"); (config, "MODULUS_INCREMENT");
         (config, "NU_RANGE"); (config, "A_RANGE");
         (config, "A_POINTS")]);
  seed ← lift (getitem config "SEED");
  r ← call "generatesection" a [("seed", seed)];
  sf ← lift (unpack 2 r);
  let Section_ := item sf 0 in
  let Frame := item sf 1 in
  b ← lift (getitems
        [(config, "N_POINTS"); (config, "X_POINTS"); (config, "Z_POINTS");
         (config, "FACTOR"); (config, "A_RANGE")]);
  r ← call "generate_query_points"
        ([Section_] ++ b ++ [Frame]) [];
  q ← lift (unpack 9 r);
  mret (item q 0, Section_).

Definition load_or_generate_data (args : Args) (config : gmap string pyobj)
  : M (pyobj * pyobj) :=
  let data_path := data_path args in
  mkdir data_path;;
  let frame_path := path_join data_path "frame_large.pkl" in
  let section_path := path_join data_path "section.pkl" in
  if run_analysis args then
    '(FrameLarge, Section_) ← generate config;
    call "analysis"
      [PyStr frame_path; PyStr section_path; FrameLarge; Section_] [];;
    FrameLarge ← pickle_load frame_path;
    Section_ ← pickle_load section_path;
    mret (FrameLarge, Section_)
  else
    FrameLarge ← pickle_load frame_path;
    Section_ ← pickle_load section_path;
    mret (FrameLarge, Section_).

(** main.py, lines 225-229 and 281-285: the split shared by the PNN and
    GNN paths. *)
Definition split_call (SAMPLING : gmap string pyobj)
    (DF final_dict_ztoE ZS xs final_dict_ztoH final_dict_ztonu : pyobj)
  : M (list pyobj) :=
  c ← lift (getitems
        [(SAMPLING, "SPLIT_IDX"); (SAMPLING, "TEST_IDX"); (SAMPLING, "N_POINTS")]);
  r ← call "train_val_test_generate"
        ([DF; final_dict_ztoE; ZS; xs] ++ c ++ [final_dict_ztoH; final_dict_ztonu]) [];
  lift (unpack 11 r).

(** The three pickle paths the evaluation functions are handed. *)
Definition ZS_path (args : Args) : pyobj := PyStr (path_join (data_path args) "ZS.pkl").
Definition xs_path (args : Args) : pyobj := PyStr (path_join (data_path args) "xs.pkl").
Definition batched_graph_test_path (args : Args) : pyobj :=
  PyStr (path_join (data_path args) "batched_graph_test.pkl").

(** main.py, lines 223-237. *)
Definition pnn_path (SAMPLING : gmap string pyobj) (args : Args)
    (DF final_dict_ztoE ZS xs final_dict_ztoH final_dict_ztonu : pyobj) : M unit :=
  t ← split_call SAMPLING DF final_dict_ztoE ZS xs final_dict_ztoH final_dict_ztonu;
  let TRAIN := item t 0 in let TRAIN_out := item t 1 in
  let VAL := item t 2 in let VAL_out := item t 3 in
  let TEST := item t 4 in let TEST_out := item t 5 in
  if opt_str_is (mode args) "train" then
    call "training_nn" [py_of_args args; TRAIN; TRAIN_out; VAL; VAL_out] [];;
    mret tt
  else if opt_str_is (mode args) "eval" then
    call "evaluate_PNN"
      [py_of_args args; TEST; TEST_out;
       ZS_path args; xs_path args; batched_graph_test_path args] [];;
    mret tt
  else mret tt.

(** main.py, lines 241-257: the row split and the scaling of the FNN path. *)
Record FnnData : Type := mkFnnData {
  x_train : pyobj; y_train : pyobj;
  x_val : pyobj; y_val : pyobj;
  x_test : pyobj; y_test : pyobj;
  y_train_og : pyobj
}.

Definition fnn_data (DF : pyobj) : exn + FnnData :=
  x_train_og ← iloc_values DF 0 135520 3 13;
  y_train_og ← iloc_values DF 0 135520 19 22;
  x_val ← iloc_values DF 135520 152720 3 13;
  y_val ← iloc_values DF 135520 152720 19 22;
  x_test ← iloc_values DF 152720 169799 3 13;
  y_test ← iloc_values DF 152720 169799 19 22;
  let scaler := StandardScaler in
  let scalery := StandardScaler in
  '(x_train, scaler) ← fit_transform sk scaler x_train_og;
  x_val ← transform sk scaler x_val;
  x_test ← transform sk scaler x_test;
  '(y_train, scalery) ← fit_transform sk scalery y_train_og;
  y_val ← transform sk scalery y_val;
  y_test ← transform sk scalery y_test;
  mret (mkFnnData x_train y_train x_val y_val x_test y_test y_train_og).

(** main.py, lines 239-273. *)
Definition fnn_path (args : Args) (DF : pyobj) : M unit :=
  d ← lift (fnn_data DF);
  if opt_str_is (mode args) "eval" then
    call "evaluate_FNN"
      [ZS_path args; xs_path args; batched_graph_test_path args;
       x_test d; y_test d; y_train_og d; py_of_args args] [];;
    mret tt
  else if opt_str_is (mode args) "train" then
    call "training_FNN"
      [py_of_args args; x_train d; y_train d; x_val d; y_val d] [];;
    mret tt
  else mret tt.

(** main.py, lines 277-278. *)
Definition gnn_train_df (SAMPLING : gmap string pyobj) (FrameLarge : pyobj)
  : exn + pyobj :=
  indexer ← loc FrameLarge;
  structure ← column FrameLarge "Structure";
  k ← getitem SAMPLING "SPLIT_IDX";
  mask ← series_le structure k;
  train_df ← loc_getitem indexer mask;
  select_cols train_df ["Strain_Z"; "Strain_R"; "Strain_T"].

(** main.py, lines 281-308: split, matrices, model and the three graphs. *)
Definition gnn_graphs (SAMPLING MODEL : gmap string pyobj)
    (DF final_dict_ztoE ZS xs final_dict_ztoH final_dict_ztonu : pyobj)
  : M (pyobj * (pyobj * pyobj * pyobj)) :=
  t ← split_call SAMPLING DF final_dict_ztoE ZS xs final_dict_ztoH final_dict_ztonu;
  let TRAIN := item t 0 in let TRAIN_out := item t 1 in
  let VAL := item t 2 in let VAL_out := item t 3 in
  let TEST := item t 4 in let TEST_out := item t 5 in
  let ZS_train := item t 6 in let ZS_val := item t 7 in
  let ZS_test := item t 8 in
  print (PyStr "Here");;
  t0 ← lift (getitem0 TRAIN);
  print t0;;
  r ← call "formation_of_matrices"
        [TRAIN; VAL; TEST; ZS_train; xs; ZS_val; ZS_test] [];
  m ← lift (unpack 6 r);
  let MAT_edge := item m 0 in let MAT_dist := item m 1 in
  let MAT_edge_val := item m 2 in let MAT_dist_val := item m 3 in
  let MAT_edge_test := item m 4 in let MAT_dist_test := item m 5 in
  dims ← lift (getitems
        [(MODEL, "INPUT_DIM"); (MODEL, "HIDDEN_DIM1"); (MODEL, "HIDDEN_DIM");
         (MODEL, "OUTPUT_DIM"); (MODEL, "NUM_LAYERS")]);
  model ← call "GAT" dims [];
  print (PyStr "This is it");;
  t0 ← lift (getitem0 TRAIN);
  print t0;;
  batched_graph ← call "train_graph" [TRAIN; TRAIN_out; MAT_edge; MAT_dist] [];
  batched_graph_val ← call "val_graph" [VAL; VAL_out; MAT_edge_val; MAT_dist_val] [];
  batched_graph_test ← call "test_graph" [TEST; TEST_out; MAT_edge_test; MAT_dist_test] [];
  mret (model, (batched_graph, batched_graph_val, batched_graph_test)).

(** main.py, lines 275-333. *)
Definition gnn_path (SAMPLING MODEL : gmap string pyobj) (args : Args)
    (FrameLarge Section_ DF final_dict_ztoE ZS xs final_dict_ztoH final_dict_ztonu : pyobj)
  : M unit :=
  train_df ← lift (gnn_train_df SAMPLING FrameLarge);
  '(model, (batched_graph, batched_graph_val, batched_graph_test)) ←
    gnn_graphs SAMPLING MODEL DF final_dict_ztoE ZS xs final_dict_ztoH final_dict_ztonu;
  (if run_analysis args then
     pickle_dump batched_graph (path_join (data_path args) "batched_graph.pkl")
   else mret tt);;
  if opt_str_is (mode args) "eval" then
    call "evaluate_GNN"
      [py_of_args args; batched_graph_test_path args; model;
       ZS_path args; xs_path args] [];;
    mret tt
  else
    optimizer ← lift (choose_optimizer model (optimizer args) (lr args));
    crit ← lift (get_criterion (criterion args));
    if opt_str_is (mode args) "train" then
      call "training_loop"
        [py_of_args args; model; optimizer;
         batched_graph; batched_graph_val; batched_graph_test;
         PyFloat (lr args); PyInt (epochs args); crit;
         Section_; ZS; xs] [("weighted_loss", PyNone)];;
      mret tt
    else mret tt.

Definition main (MATERIAL SAMPLING MODEL : gmap string pyobj) (args : Args)
  : M unit :=
  if opt_str_is (mode args) "eval" && negb (truthy (model_path args)) then
    raise (ValueError "--model_path must be provided when --mode is 'eval'.")
  else
    '(FrameLarge, Section_) ←
      load_or_generate_data args (dict_merge MATERIAL SAMPLING);
    a ← lift (getitems
          [(SAMPLING, "N_POINTS"); (MATERIAL, "N_MATERIALS");
           (MATERIAL, "MATERIAL_TYPES"); (MATERIAL, "SUBLAYER_MAX");
           (MATERIAL, "THICKNESS_RANGE"); (MATERIAL, "MODULUS_RANGE");
           (SAMPLING, "Z_POINTS"); (SAMPLING, "X_POINTS");
           (MATERIAL, "THICKNESS_INCREMENT"); (MATERIAL, "MODULUS_INCREMENT");
           (MATERIAL, "NU_RANGE"); (SAMPLING, "A_RANGE");
           (SAMPLING, "A_POINTS")]);
    seed ← lift (getitem SAMPLING "SEED");
    r ← call "generatesection" a [("seed", seed)];
    sf ← lift (unpack 2 r);
    let Frame := item sf 1 in
    b ← lift (getitems
          [(SAMPLING, "N_POINTS"); (SAMPLING, "X_POINTS"); (SAMPLING, "Z_POINTS");
           (SAMPLING, "FACTOR"); (SAMPLING, "A_RANGE")]);
    r ← call "generate_query_points" ([Section_] ++ b ++ [Frame]) [];
    q ← lift (unpack 9 r);
    let xs := item q 2 in
    let final_dict_ztoE := item q 5 in
    let final_dict_ztoH := item q 7 in
    let final_dict_ztonu := item q 8 in
    r ← call "remove_strain_z" [FrameLarge] [];
    zd ← lift (unpack 2 r);
    let ZS := item zd 0 in
    let DF := item zd 1 in
    (if run_analysis args then
       pickle_dump ZS (path_join (data_path args) "ZS.pkl");;
       pickle_dump xs (path_join (data_path args) "xs.pkl")
     else mret tt);;
    if opt_str_is (model args) "PNN" then
      pnn_path SAMPLING args DF final_dict_ztoE ZS xs final_dict_ztoH final_dict_ztonu
    else if opt_str_is (model args) "FNN" then
      fnn_path args DF
    else if opt_str_is (model args) "GNN" then
      gnn_path SAMPLING MODEL args FrameLarge Section_
        DF final_dict_ztoE ZS xs final_dict_ztoH final_dict_ztonu
    else mret tt.
End Driver.


(** * The collaborators, from the specification

    The functions of the [training] and [PIML] packages are not part of
    the sources at hand.  Those the properties below depend on are
    modelled from the specification; the numerical procedures the
    specification leaves open (how a structure is drawn, which columns are
    features, how distances are measured) are the fields of [Procedures]. *)

Record Procedures : Type := mkProcedures {
  (* the generator state a seed initialises *)
  reseed : Z -> Z;
  (* drawing the structures from a generator state: (Section, Frame)
     and the state the generator is left in *)
  sample : list pyobj -> Z -> pyobj * Z;
  (* the query points and look-up tables of given structures: 9 outputs *)
  query : list pyobj -> pyobj;
  (* minimum and maximum per feature, of the rows handed in *)
  stats_of : list (list pyobj) -> pyobj * pyobj;
  (* node features and targets of one row, under given statistics *)
  feature_of : pyobj * pyobj -> list pyobj -> list pyobj;
  target_of : pyobj * pyobj -> list pyobj -> list pyobj;
  (* the depths of one structure *)
  depths_of : pyobj -> Z -> pyobj;
  (* adjacency and distance matrix over the points of one structure *)
  edges_of : pyobj -> pyobj -> pyobj -> pyobj;
  dists_of : pyobj -> pyobj -> pyobj -> pyobj
}.

(** Whether a cell holds the structure index [s]. *)
Definition is_structure (s : Z) (c : pyobj) : bool :=
  match c with
  | PyInt z => Z.eqb z s
  | PyFloat q => Qeq_bool q (inject_Z s)
  | _ => false
  end.

(** The rows of structure [s], in the order the frame holds them. *)
Definition rows_of (idx : nat) (rows : list (list pyobj)) (s : Z)
  : list (list pyobj) :=
  List.filter (fun r => is_structure s (item r idx)) rows.

(** The rows of the structures [lo, hi), in frame order. *)
Definition rows_in (idx : nat) (rows : list (list pyobj)) (lo hi : Z)
  : list (list pyobj) :=
  List.filter
    (fun r => match item r idx with
              | PyInt z => Z.leb lo z && Z.ltb z hi
              | PyFloat q => Qle_bool (inject_Z lo) q
                             && negb (Qle_bool (inject_Z hi) q)
              | _ => false
              end) rows.

Definition array_rows (o : pyobj) : list (list pyobj) :=
  match o with
  | PyArray rows => rows
  | _ => []
  end.

Definition list_items (o : pyobj) : option (list pyobj) :=
  match o with
  | PyList l => Some l
  | _ => None
  end.

Section Collaborators.
Context (P : Procedures).

(** Modelled from the spec: generatesection (training/dataset_generation.py
    is missing).  Section 4.1: "given ... a random seed, produce a
    deterministic, reproducible sequence of N_POINTS valid Structures ...
    Side effect: none beyond returning the sequence; no global state
    persists across calls except the explicit seed."  The generator is
    initialised from the seed and the structures are drawn from it. *)
Definition spec_generatesection (args : list pyobj)
    (kwargs : list (string * pyobj)) (d : gmap string pyobj) (g : Z) : Reply :=
  match kwargs with
  | [(k, PyInt seed)] =>
      if String.eqb k "seed" then
        let '(r, g') := sample P args (reseed P seed) in mkReply (inr r) d g'
      else mkReply (inl (TypeError "unexpected keyword argument")) d g
  | _ => mkReply (inl (TypeError "seed")) d g
  end.

(** Modelled from the spec: generate_query_points
    (training/dataset_generation.py is missing).  Section 4.2: "given a
    Structure and contact-radius parameters, produce the fixed-size
    ordered sequence of QueryPoints for that structure, plus the
    depth-to-property mapping dictionaries": a function of its
    arguments. *)
Definition spec_generate_query_points (args : list pyobj)
    (d : gmap string pyobj) (g : Z) : Reply :=
  mkReply (inr (query P args)) d g.

(** One split: for each structure of [ids], in that order, the array
    [f] makes of its rows. *)
Definition per_structure (f : list pyobj -> list pyobj) (idx : nat)
    (rows : list (list pyobj)) (ids : list Z) : pyobj :=
  PyList ((fun s => PyArray (f <$> rows_of idx rows s)) <$> ids).

(** Modelled from the spec: the precondition of the Splitter, section 4.5:
    "0 < split_idx < test_idx < N_POINTS". *)
Definition valid_split (split_idx test_idx N : Z) : bool :=
  Z.ltb 0 split_idx && Z.ltb split_idx test_idx && Z.ltb test_idx N.

(** Modelled from the spec: train_val_test_generate
    (training/data_preprocessing.py is missing).  Section 3: "three
    disjoint, contiguous ranges over the structure-index domain:
    [0, split_idx) train, [split_idx, test_idx) validation, [test_idx, N)
    test, plus optional per-feature normalization statistics (min/max or
    mean/std) computed only from the train range"; section 4.5:
    "partition the Frame into train/val/test by filtering on structure id
    membership in each range ... Precondition: 0 < split_idx < test_idx <
    N_POINTS; violation is a configuration error reported before any
    computation proceeds". *)
Definition spec_train_val_test_generate (args : list pyobj) : exn + pyobj :=
  match args with
  | [PyFrame cols rows; _; ZS; _; PyInt split_idx; PyInt test_idx; PyInt N; _; _] =>
      if negb (valid_split split_idx test_idx N) then
        inl (OtherError "ConfigurationError" "invalid split indices")
      else
      match index_of "Structure" cols with
      | None => inl (KeyError "Structure")
      | Some idx =>
          let train := seqZ 0 split_idx in
          let val := seqZ split_idx (test_idx - split_idx) in
          let test := seqZ test_idx (N - test_idx) in
          let st := stats_of P (rows_in idx rows 0 split_idx) in
          inr (PyTuple
                 [per_structure (feature_of P st) idx rows train;
                  per_structure (target_of P st) idx rows train;
                  per_structure (feature_of P st) idx rows val;
                  per_structure (target_of P st) idx rows val;
                  per_structure (feature_of P st) idx rows test;
                  per_structure (target_of P st) idx rows test;
                  PyList (depths_of P ZS <$> train);
                  PyList (depths_of P ZS <$> val);
                  PyList (depths_of P ZS <$> test);
                  st.1; st.2])
      end
  | _ => inl (TypeError "train_val_test_generate")
  end.

(** The matrices of one split, one per structure. *)
Definition matrices (f : pyobj -> pyobj -> pyobj -> pyobj) (xs S ZSs : pyobj)
  : option pyobj :=
  l ← list_items S;
  z ← list_items ZSs;
  Some (PyList (zip_with (f xs) l z)).

(** Modelled from the spec: formation_of_matrices
    (training/data_preprocessing.py is missing).  Section 4.6: "for each
    structure within a split, build an adjacency/distance matrix over its
    QueryPoints". *)
Definition spec_formation_of_matrices (args : list pyobj) : exn + pyobj :=
  match args with
  | [TRAIN; VAL; TEST; ZS_train; xs; ZS_val; ZS_test] =>
      match
        (e1 ← matrices (edges_of P) xs TRAIN ZS_train;
         d1 ← matrices (dists_of P) xs TRAIN ZS_train;
         e2 ← matrices (edges_of P) xs VAL ZS_val;
         d2 ← matrices (dists_of P) xs VAL ZS_val;
         e3 ← matrices (edges_of P) xs TEST ZS_test;
         d3 ← matrices (dists_of P) xs TEST ZS_test;
         Some (PyTuple [e1; d1; e2; d2; e3; d3]))
      with
      | Some r => inr r
      | None => inl (TypeError "formation_of_matrices")
      end
  | _ => inl (TypeError "formation_of_matrices")
  end.

(** Modelled from the spec: train_graph, val_graph and test_graph
    (training/graphs_formation.py is missing).  Section 3: "Each graph's
    nodes are that structure's query points ...; graphs are batched while
    preserving structure boundaries so per-structure subgraphs can be
    recovered"; section 5: "merge results in structure-id order in the
    final batched output".  The batch holds the nodes and the labels of
    all graphs, the node count of each graph, and the matrices. *)
Definition spec_graph (args : list pyobj) : exn + pyobj :=
  match args with
  | [PyList X; PyList Y; MAT_edge; MAT_dist] =>
      inr (PyObj "BatchedGraph"
             [PyArray (concat (array_rows <$> X));
              PyArray (concat (array_rows <$> Y));
              PyList ((fun x => PyInt (Z.of_nat (length (array_rows x)))) <$> X);
              MAT_edge; MAT_dist])
  | _ => inl (TypeError "graph")
  end.

Definition pure_reply (r : exn + pyobj) (d : gmap string pyobj) (g : Z) : Reply :=
  mkReply r d g.

(** The collaborators modelled above; every other call goes to [others]. *)
Definition spec_ext (others : Ext) : Ext := fun fn args kwargs d g =>
  if String.eqb fn "generatesection" then spec_generatesection args kwargs d g
  else if String.eqb fn "generate_query_points" then
    spec_generate_query_points args d g
  else if String.eqb fn "train_val_test_generate" then
    pure_reply (spec_train_val_test_generate args) d g
  else if String.eqb fn "formation_of_matrices" then
    pure_reply (spec_formation_of_matrices args) d g
  else if String.eqb fn "train_graph" then pure_reply (spec_graph args) d g
  else if String.eqb fn "val_graph" then pure_reply (spec_graph args) d g
  else if String.eqb fn "test_graph" then pure_reply (spec_graph args) d g
  else others fn args kwargs d g.
End Collaborators.

(** The nodes of the [k]-th graph of a batch, read back through the node
    counts. *)
Definition as_nat (o : pyobj) : option nat :=
  match o with
  | PyInt z => Some (Z.to_nat z)
  | _ => None
  end.

Definition subgraph_nodes (batch : pyobj) (k : nat) : option (list (list pyobj)) :=
  match batch with
  | PyObj _ [PyArray nodes; _; PyList counts; _; _] =>
      ns ← mapM (M := option) as_nat counts;
      n ← ns !! k;
      Some (take n (drop (sum_list (take k ns)) nodes))
  | _ => None
  end.

(** ** One instance, to run the driver on concrete inputs *)

Definition lcg (g : Z) : Z := (1103515245 * g + 12345) mod 2147483648.

(** [n] structures: index, a thickness in 2..16 and a modulus in
    500..2000 on a grid of 50, drawn in turn. *)
Fixpoint example_structures (n : nat) (i g : Z) : list (list pyobj) * Z :=
  match n with
  | O => ([], g)
  | S n' =>
      let g1 := lcg g in
      let g2 := lcg g1 in
      let '(rest, g') := example_structures n' (i + 1) g2 in
      ([PyInt i; PyInt (2 + g1 mod 15); PyInt (500 + 50 * (g2 mod 31))] :: rest, g')
  end.

Definition example_sample (args : list pyobj) (g : Z) : pyobj * Z :=
  match args with
  | PyInt n :: _ =>
      let '(rows, g') := example_structures (Z.to_nat n) 0 g in
      (PyTuple [PyFrame ["Structure"; "H"; "E"] rows;
                PyFrame ["Structure"] ((fun r => take 1 r) <$> rows)], g')
  | _ => (PyNone, g)
  end.

(** The points of one structure: depth outer, offset inner. *)
Definition example_points (s nz nx : Z) : list (list pyobj) :=
  z ← seqZ 0 nz; x ← seqZ 0 nx; [[PyInt s; PyInt x; PyInt z]].

Definition example_query (args : list pyobj) : pyobj :=
  match args with
  | [_; PyInt n; PyInt nx; PyInt nz; _; _; _] =>
      PyTuple
        [PyFrame ["Structure"; "x"; "z"]
           (s ← seqZ 0 n; example_points s nz nx);
         ints (seqZ 0 nz); ints (seqZ 0 nx);
         PyNone; PyNone; PyNone; PyNone; PyNone; PyNone]
  | _ => PyNone
  end.

Definition example_procedures : Procedures :=
  {| reseed := fun seed => seed mod 2147483648;
     sample := example_sample;
     query := example_query;
     stats_of := fun _ => (PyNone, PyNone);
     feature_of := fun _ r => py_slice 3 13 r;
     target_of := fun _ r => py_slice 19 22 r;
     depths_of := fun ZS _ => ZS;
     edges_of := fun _ _ _ => PyNone;
     dists_of := fun _ _ _ => PyNone |}.

(** A response of zero strain at every query point. *)
Definition with_response (FrameLarge : pyobj) : pyobj :=
  match FrameLarge with
  | PyFrame cols rows =>
      PyFrame (cols ++ ["Strain_Z"; "Strain_R"; "Strain_T"])
        ((fun r => r ++ [PyInt 0; PyInt 0; PyInt 0]) <$> rows)
  | _ => FrameLarge
  end.

(** The remaining collaborators: [analysis] adds the response columns and
    persists the two artifacts, [remove_strain_z] hands the frame on, [GAT]
    builds a model object with one parameter, the training and evaluation
    functions answer [None]. *)
Definition example_others : Ext := fun fn args kwargs d g =>
  if String.eqb fn "analysis" then
    match args with
    | [PyStr frame_path; PyStr section_path; FrameLarge; Section_] =>
        mkReply (inr PyNone)
          (<[section_path := Section_]>
             (<[frame_path := with_response FrameLarge]> d)) g
    | _ => mkReply (inl (TypeError "analysis")) d g
    end
  else if String.eqb fn "remove_strain_z" then
    match args with
    | [FrameLarge] => mkReply (inr (PyTuple [PyNone; FrameLarge])) d g
    | _ => mkReply (inl (TypeError "remove_strain_z")) d g
    end
  else if String.eqb fn "GAT" then
    mkReply (inr (PyObj "GAT" [PyObj "Parameter" args])) d g
  else mkReply (inr PyNone) d g.

Definition example_ext : Ext := spec_ext example_procedures example_others.

(** A scaler that keeps the first row as its statistics and hands the
    array on unchanged; an array with no row is refused, as sklearn does. *)
Definition example_sk : Sklearn :=
  {| std_fit := fun X =>
       match X with
       | PyArray (r :: _) => inr (PyList r)
       | _ => inl (ValueError "Found array with 0 sample(s)")
       end;
     std_apply := fun p X =>
       match X with
       | PyArray (r :: _) => inr X
       | _ => inl (ValueError "Found array with 0 sample(s)")
       end |}.

Definition example_args : Args :=
  {| run_analysis := false; mode := Some "train"; model := Some "FNN";
     data_path := "data"; lr := Qmake 1 1000; epochs := 10;
     optimizer := "Adam"; criterion := "MSE"; log_dir := "logs";
     model_path := None |}.

Definition empty_world : World := {| disk := ∅; rng := 0; log := [] |}.

(** A frame around the split index: one row each of the structures 799,
    800 and 801. *)
Definition boundary_frame : pyobj :=
  PyFrame ["Structure"; "x"; "z"; "Strain_Z"; "Strain_R"; "Strain_T"]
    [[PyInt 799; PyInt 0; PyInt 0; flt 11 10; flt 12 10; flt 13 10];
     [PyInt 800; PyInt 0; PyInt 0; flt 21 10; flt 22 10; flt 23 10];
     [PyInt 801; PyInt 0; PyInt 0; flt 31 10; flt 32 10; flt 33 10]].

(** Stated from the spec, for comparison with what the driver does on
    loading (section 4.7, "dimension/count checks"): the structures
    artifact holds N_POINTS structures and the frame has a structure
    column. *)
Definition spec_schema_ok (config : gmap string pyobj) (FrameLarge Section_ : pyobj)
  : bool :=
  match config !! "N_POINTS", FrameLarge, Section_ with
  | Some (PyInt n), PyFrame cols _, PyFrame _ structures =>
      Z.eqb (Z.of_nat (length structures)) n
      && bool_decide (is_Some (index_of "Structure" cols))
  | _, _, _ => false
  end.

(** Cached artifacts of another configuration: three structures, a frame
    without a structure column. *)
Definition stale_world : World :=
  {| disk := {[ "data/frame_large.pkl" := PyFrame ["x"; "z"] [[PyInt 0; PyInt 0]];
                "data/section.pkl" :=
                  PyFrame ["Structure"; "H"; "E"]
                    [[PyInt 0; PyInt 4; PyInt 500];
                     [PyInt 1; PyInt 6; PyInt 900];
                     [PyInt 2; PyInt 8; PyInt 700]] ]};
     rng := 0; log := [] |}.

Definition eval_args : Args :=
  {| run_analysis := true; mode := Some "eval"; model := Some "GNN";
     data_path := "data"; lr := Qmake 1 1000; epochs := 10;
     optimizer := "Adam"; criterion := "MSE"; log_dir := "logs";
     model_path := None |}.

(** ** The FNN path, restated *)

(** Stated from the spec, for comparison with [fnn_data] (section 4.5:
    "Fit normalization statistics exclusively on the train partition;
    apply identical transform parameters to val/test"): the statistics are
    those of [train], and all three partitions are mapped with them. *)
Definition scale_with_train_statistics (sk : Sklearn) (train val test : pyobj)
  : exn + (pyobj * pyobj * pyobj) :=
  p ← std_fit sk train;
  train' ← std_apply sk p train;
  val' ← std_apply sk p val;
  test' ← std_apply sk p test;
  mret (train', val', test').

(** The three row ranges of the FNN path. *)
Definition fnn_row_partition (rows : list (list pyobj))
  : list (list pyobj) * list (list pyobj) * list (list pyobj) :=
  (py_slice 0 135520 rows, py_slice 135520 152720 rows, py_slice 152720 169799 rows).

(** Features (columns 3 to 12) and targets (columns 19 to 21) of given
    partitions, each scaled with the statistics of the train partition. *)
Definition fnn_from_partition (sk : Sklearn) (tr va te : list (list pyobj))
  : exn + FnnData :=
  '(x_train, x_val, x_test) ←
    scale_with_train_statistics sk
      (PyArray (py_slice 3 13 <$> tr)) (PyArray (py_slice 3 13 <$> va))
      (PyArray (py_slice 3 13 <$> te));
  '(y_train, y_val, y_test) ←
    scale_with_train_statistics sk
      (PyArray (py_slice 19 22 <$> tr)) (PyArray (py_slice 19 22 <$> va))
      (PyArray (py_slice 19 22 <$> te));
  mret (mkFnnData x_train y_train x_val y_val x_test y_test
          (PyArray (py_slice 19 22 <$> tr))).

(** A frame in structure order: [n] structures of [k] rows each, 22 columns,
    the structure index first. *)
Definition uniform_row (s : Z) : list pyobj := PyInt s :: replicate 21 (PyInt 0).

Definition uniform_rows (n : Z) (k : nat) : list (list pyobj) :=
  s ← seqZ 0 n; replicate k (uniform_row s).

(** The structure index a row carries in its first column. *)
Definition structure_id (r : list pyobj) : pyobj := item r 0.

(** ** Worlds with cached artifacts *)

Definition shipped_config : gmap string pyobj :=
  dict_merge MATERIAL_CONFIG SAMPLING_CONFIG.

(** The frame and the structures a generation run of the example
    collaborators produces under the shipped configuration. *)
Definition generated : pyobj * pyobj :=
  match (generate example_ext shipped_config empty_world).1 with
  | inr p => p
  | inl _ => (PyNone, PyNone)
  end.

Definition cached_world : World :=
  {| disk := {[ "data/frame_large.pkl" := generated.1;
                "data/section.pkl" := generated.2 ]};
     rng := 0; log := [] |}.

(** The positional arguments both calls of generatesection receive under
    the shipped configuration. *)
Definition shipped_generatesection_args : list pyobj :=
  [PyInt 1000; PyInt 3; PyList [PyStr "AC"; PyStr "B"; PyStr "SG"];
   ints [1; 1; 1]; PyList [ints [2; 16]; ints [4; 20]];
   PyList [ints [500; 2000]; ints [50; 300]; ints [5; 50]];
   PyInt 14; PyInt 10; ints [1; 2; 4]; ints [50; 20; 20; 5];
   PyList [PyList [flt 3 10; flt 4 10];
           PyList [flt 2 10; flt 499 1000];
           PyList [flt 2 10; flt 499 1000]];
   ints [4; 4]; PyInt 1].

(** A sampling configuration whose split indices are out of order. *)
Definition crossed_SAMPLING : gmap string pyobj :=
  <["SPLIT_IDX" := PyInt 900]> (<["TEST_IDX" := PyInt 800]> SAMPLING_CONFIG).

(** The generatesection arguments [main] looks up. *)
Definition main_generatesection_keys (MATERIAL SAMPLING : gmap string pyobj)
  : list (gmap string pyobj * string) :=
  [(SAMPLING, "N_POINTS"); (MATERIAL, "N_MATERIALS");
   (MATERIAL, "MATERIAL_TYPES"); (MATERIAL, "SUBLAYER_MAX");
   (MATERIAL, "THICKNESS_RANGE"); (MATERIAL, "MODULUS_RANGE");
   (SAMPLING, "Z_POINTS"); (SAMPLING, "X_POINTS");
   (MATERIAL, "THICKNESS_INCREMENT"); (MATERIAL, "MODULUS_INCREMENT");
   (MATERIAL, "NU_RANGE"); (SAMPLING, "A_RANGE");
   (SAMPLING, "A_POINTS")].

Definition main_query_keys (SAMPLING : gmap string pyobj)
  : list (gmap string pyobj * string) :=
  [(SAMPLING, "N_POINTS"); (SAMPLING, "X_POINTS"); (SAMPLING, "Z_POINTS");
   (SAMPLING, "FACTOR"); (SAMPLING, "A_RANGE")].

Definition tuple_items (o : pyobj) : list pyobj :=
  match o with
  | PyTuple l => l
  | _ => []
  end.

(** The keys the split and the model constructor look up. *)
Definition split_keys (SAMPLING : gmap string pyobj) : list (gmap string pyobj * string) :=
  [(SAMPLING, "SPLIT_IDX"); (SAMPLING, "TEST_IDX"); (SAMPLING, "N_POINTS")].
Definition model_keys (MODEL : gmap string pyobj) : list (gmap string pyobj * string) :=
  [(MODEL, "INPUT_DIM"); (MODEL, "HIDDEN_DIM1"); (MODEL, "HIDDEN_DIM");
   (MODEL, "OUTPUT_DIM"); (MODEL, "NUM_LAYERS")].

(** A frame of 22 columns, the structure index first. *)
Definition uniform_cols : list string :=
  "Structure" :: replicate 21 "value".

(** Four structures in two interleaved passes over the frame. *)
Definition interleaved_rows : list (list pyobj) :=
  [[PyInt 0; PyInt 0; PyInt 0; PyInt 10];
   [PyInt 1; PyInt 0; PyInt 0; PyInt 11];
   [PyInt 2; PyInt 0; PyInt 0; PyInt 12];
   [PyInt 3; PyInt 0; PyInt 0; PyInt 13];
   [PyInt 0; PyInt 1; PyInt 0; PyInt 20];
   [PyInt 1; PyInt 1; PyInt 0; PyInt 21];
   [PyInt 2; PyInt 1; PyInt 0; PyInt 22];
   [PyInt 3; PyInt 1; PyInt 0; PyInt 23]].

Definition interleaved_frame : pyobj :=
  PyFrame ["Structure"; "x"; "z"; "f0"] interleaved_rows.

Definition small_SAMPLING : gmap string pyobj :=
  <["N_POINTS" := PyInt 4]>
    (<["SPLIT_IDX" := PyInt 2]> (<["TEST_IDX" := PyInt 3]> SAMPLING_CONFIG)).

(** Procedures that take the whole row as features. *)
Definition whole_row_procedures : Procedures :=
  {| reseed := reseed example_procedures;
     sample := sample example_procedures;
     query := query example_procedures;
     stats_of := stats_of example_procedures;
     feature_of := fun _ r => r;
     target_of := fun _ r => drop 3 r;
     depths_of := depths_of example_procedures;
     edges_of := edges_of example_procedures;
     dists_of := dists_of example_procedures |}.

(** The names of the collaborators called, in the order of the calls. *)
Definition call_names (l : list Event) : list string :=
  omap (fun e => match e with EvCall fn _ _ => Some fn | _ => None end) l.

Definition gnn_train_args : Args :=
  {| run_analysis := true; mode := Some "train"; model := Some "GNN";
     data_path := "data"; lr := Qmake 1 1000; epochs := 10;
     optimizer := "Adam"; criterion := "MSE"; log_dir := "logs";
     model_path := None |}.

Definition is_ok {A : Type} (r : exn + A) : bool :=
  match r with
  | inr _ => true
  | inl _ => false
  end.

(** * Further properties: definitions *)

(** ** Which calls the flags select *)

Definition name_in (fn : string) (names : list string) : bool :=
  existsb (String.eqb fn) names.

Definition preprocessing_functions : list string :=
  ["generatesection"; "generate_query_points"; "remove_strain_z"].

Definition graph_functions : list string :=
  ["formation_of_matrices"; "GAT"; "train_graph"; "val_graph"; "test_graph"].

Definition training_functions : list string :=
  ["training_nn"; "training_FNN"; "training_loop"].

Definition evaluation_functions : list string :=
  ["evaluate_PNN"; "evaluate_FNN"; "evaluate_GNN"].

(** The collaborators [main] may call under given arguments. *)
Definition call_allowed (args : Args) (fn : string) : bool :=
  let is_model := opt_str_is (model args) in
  let is_mode := opt_str_is (mode args) in
  if name_in fn preprocessing_functions then true
  else if String.eqb fn "analysis" then run_analysis args
  else if String.eqb fn "train_val_test_generate" then
    is_model "PNN" || is_model "GNN"
  else if String.eqb fn "training_nn" then is_model "PNN" && is_mode "train"
  else if String.eqb fn "evaluate_PNN" then is_model "PNN" && is_mode "eval"
  else if String.eqb fn "training_FNN" then is_model "FNN" && is_mode "train"
  else if String.eqb fn "evaluate_FNN" then is_model "FNN" && is_mode "eval"
  else if name_in fn graph_functions then is_model "GNN"
  else if String.eqb fn "training_loop" then is_model "GNN" && is_mode "train"
  else if String.eqb fn "evaluate_GNN" then is_model "GNN" && is_mode "eval"
  else false.

(** The pickle files [main] itself writes. *)
Definition dump_paths (args : Args) : list string :=
  [path_join (data_path args) "ZS.pkl"; path_join (data_path args) "xs.pkl";
   path_join (data_path args) "batched_graph.pkl"].

(** What one step of [main] may be under given arguments. *)
Definition event_allowed (args : Args) (e : Event) : Prop :=
  match e with
  | EvCall fn _ _ => call_allowed args fn = true
  | EvDump path _ => run_analysis args = true /\ In path (dump_paths args)
  | EvLoad path =>
      In path [path_join (data_path args) "frame_large.pkl";
               path_join (data_path args) "section.pkl"]
  | EvMkdir path => path = data_path args
  | EvPrint _ => opt_str_is (model args) "GNN" = true
  end.

(** A computation appends to the log, and only events that satisfy [P]. *)
Definition emits {A : Type} (P : Event -> Prop) (m : M A) : Prop :=
  forall w : World,
    exists l : list Event, log (m w).2 = log w ++ l /\ Forall P l.

(** Every collaborator [main] names. *)
Definition all_functions : list string :=
  preprocessing_functions ++ ["analysis"; "train_val_test_generate"]
  ++ graph_functions ++ training_functions ++ evaluation_functions.


(** The keys the generation calls read from each dictionary. *)
Definition material_keys : list string :=
  ["N_MATERIALS"; "MATERIAL_TYPES"; "SUBLAYER_MAX"; "THICKNESS_RANGE";
   "MODULUS_RANGE"; "THICKNESS_INCREMENT"; "MODULUS_INCREMENT"; "NU_RANGE"].

Definition sampling_keys : list string :=
  ["N_POINTS"; "Z_POINTS"; "X_POINTS"; "A_RANGE"; "A_POINTS"; "FACTOR"; "SEED"].

Definition small_config : gmap string pyobj :=
  dict_merge MATERIAL_CONFIG small_SAMPLING.

(** What a generation run under the small configuration returns. *)
Definition small_generated : pyobj * pyobj :=
  match (load_or_generate_data example_ext gnn_train_args small_config
           empty_world).1 with
  | inr p => p
  | inl _ => (PyNone, PyNone)
  end.

(** Whether the filter of the GNN path keeps a row: its cell in column
    [i] is an integer that is at most [k]. *)
Definition keeps (i : nat) (k : Z) (r : list pyobj) : bool :=
  match item r i with
  | PyInt z => Z.leb z k
  | _ => false
  end.

Definition sgd_args : Args :=
  {| run_analysis := true; mode := Some "train"; model := Some "GNN";
     data_path := "data"; lr := Qmake 1 1000; epochs := 10;
     optimizer := "SGD"; criterion := "MSE"; log_dir := "logs";
     model_path := None |}.

Definition small_ext : Ext := spec_ext whole_row_procedures example_others.

(** The model and graphs of the interleaved frame under the small
    configuration. *)
Definition small_graphs : pyobj * (pyobj * pyobj * pyobj) :=
  match (gnn_graphs small_ext small_SAMPLING MODEL_CONFIG interleaved_frame
           PyNone PyNone PyNone PyNone PyNone empty_world).1 with
  | inr p => p
  | inl _ => (PyNone, (PyNone, PyNone, PyNone))
  end.

(** A splitter that finds no structure at all: every list it hands back
    is empty. *)
Definition empty_split : list pyobj :=
  [PyList []; PyList []; PyList []; PyList []; PyList []; PyList [];
   PyList []; PyList []; PyList []; PyNone; PyNone].

Definition empty_split_ext : Ext := fun fn args kwargs d g =>
  if String.eqb fn "train_val_test_generate" then
    mkReply (inr (PyTuple empty_split)) d g
  else example_others fn args kwargs d g.
(** * Properties of the driver *)

(** ** The factories *)


Lemma choose_optimizer_other (model : pyobj) (optimizer_type : string) (lr : Q) :
  optimizer_type <> "Adam" ->
  choose_optimizer model optimizer_type lr
  = inl (ValueError ("Unsupported optimizer type: " +:+ optimizer_type)).
Proof.
  intros Hne. unfold choose_optimizer.
  by destruct (String.eqb_spec optimizer_type "Adam").
Qed.






(** ** The model-path check *)

(** C9: invoked with mode "eval" and no model path, [main] raises
    ValueError and leaves the world as it found it: nothing was loaded,
    generated, written or called. *)
Theorem eval_without_model_path_raises (ext : Ext) (sk : Sklearn)
    (MATERIAL SAMPLING MODEL : gmap string pyobj) (args : Args) (w : World) :
  mode args = Some "eval" ->
  model_path args = None ->
  main ext sk MATERIAL SAMPLING MODEL args w
  = (inl (ValueError "--model_path must be provided when --mode is 'eval'."), w).
Proof.
  intros Hmode Hpath. unfold main, opt_str_is, truthy.
  rewrite Hmode, Hpath. reflexivity.
Qed.

Lemma eval_without_model_path_raises_witness :
  main example_ext example_sk MATERIAL_CONFIG SAMPLING_CONFIG MODEL_CONFIG
    eval_args empty_world
  = (inl (ValueError "--model_path must be provided when --mode is 'eval'."),
     empty_world).
Proof.
  apply (eval_without_model_path_raises example_ext example_sk
           MATERIAL_CONFIG SAMPLING_CONFIG MODEL_CONFIG eval_args empty_world);
    reflexivity.
Defined.

(** ** The row filter of the GNN path *)

Lemma series_le_int (s k : Z) :
  series_le [PyInt s] (PyInt k) = inr [bool_decide (s <= k)].
Proof.
  unfold series_le; simpl. do 2 f_equal.
  unfold Qle_bool; simpl. rewrite !Z.mul_1_r.
  destruct (Z.leb_spec s k);
    [by rewrite bool_decide_true | by rewrite bool_decide_false by lia].
Qed.

(** C1: the filter that builds [train_df] compares with [<=]: a row is kept
    exactly when its structure index is at most SPLIT_IDX.  Under the
    shipped configuration the row of structure 800 is therefore kept,
    although 800 is not in [0, 800). *)
Theorem gnn_train_filter_keeps_split_idx :
  getitem SAMPLING_CONFIG "SPLIT_IDX" = inr (PyInt 800)
  /\ (forall s : Z, series_le [PyInt s] (PyInt 800) = inr [bool_decide (s <= 800)])
  /\ gnn_train_df SAMPLING_CONFIG boundary_frame
     = inr (PyFrame ["Strain_Z"; "Strain_R"; "Strain_T"]
              [[flt 11 10; flt 12 10; flt 13 10];
               [flt 21 10; flt 22 10; flt 23 10]])
  /\ ~ (0 <= 800 < 800).
Proof.
  split; [reflexivity|]. split; [intros s; apply series_le_int|].
  split; [vm_compute; reflexivity | lia].
Qed.

(** ** Loading cached artifacts *)

Ltac run :=
  unfold mbind, M_bind, mret, M_ret, lift, raise, mkdir, print, emit; simpl.

Lemma logged_logged (w : World) (l1 l2 : list Event) :
  logged (logged w l1) l2 = logged w (l1 ++ l2).
Proof. unfold logged; simpl. by rewrite <- app_assoc. Qed.

Lemma cached_load (ext : Ext) (args : Args) (config : gmap string pyobj) (w : World) :
  run_analysis args = false ->
  load_or_generate_data ext args config w
  = let frame_path := path_join (data_path args) "frame_large.pkl" in
    let section_path := path_join (data_path args) "section.pkl" in
    match disk w !! frame_path, disk w !! section_path with
    | Some f, Some s =>
        (inr (f, s),
         logged w [EvMkdir (data_path args); EvLoad frame_path; EvLoad section_path])
    | Some f, None =>
        (inl (FileNotFoundError section_path),
         logged w [EvMkdir (data_path args); EvLoad frame_path])
    | None, _ =>
        (inl (FileNotFoundError frame_path), logged w [EvMkdir (data_path args)])
    end.
Proof.
  intros Hload. unfold load_or_generate_data. rewrite Hload. run.
  unfold pickle_load; simpl.
  destruct (disk w !! path_join (data_path args) "frame_large.pkl") as [f|];
    [|reflexivity].
  simpl.
  destruct (disk w !! path_join (data_path args) "section.pkl") as [s|];
    rewrite ?logged_logged; reflexivity.
Qed.

(** C3, as the driver has it: in load-cached mode, when the two pickle
    files hold the objects [f] and [s], [load_or_generate_data] hands back
    exactly [(f, s)], whatever they are and whatever the configuration is:
    it makes the directory, reads the two files, calls no collaborator and
    checks nothing. *)
Theorem cached_load_returns_files_unchecked (ext : Ext) (args : Args)
    (config : gmap string pyobj) (w : World) (f s : pyobj) :
  run_analysis args = false ->
  disk w !! path_join (data_path args) "frame_large.pkl" = Some f ->
  disk w !! path_join (data_path args) "section.pkl" = Some s ->
  load_or_generate_data ext args config w
  = (inr (f, s),
     logged w [EvMkdir (data_path args);
               EvLoad (path_join (data_path args) "frame_large.pkl");
               EvLoad (path_join (data_path args) "section.pkl")]).
Proof.
  intros Hload Hf Hs. rewrite cached_load by assumption. simpl.
  by rewrite Hf, Hs.
Qed.

Lemma cached_load_returns_files_unchecked_witness :
  load_or_generate_data example_ext example_args
    (dict_merge MATERIAL_CONFIG SAMPLING_CONFIG) stale_world
  = (inr (PyFrame ["x"; "z"] [[PyInt 0; PyInt 0]],
          PyFrame ["Structure"; "H"; "E"]
            [[PyInt 0; PyInt 4; PyInt 500];
             [PyInt 1; PyInt 6; PyInt 900];
             [PyInt 2; PyInt 8; PyInt 700]]),
     logged stale_world
       [EvMkdir "data"; EvLoad "data/frame_large.pkl"; EvLoad "data/section.pkl"]).
Proof.
  apply (cached_load_returns_files_unchecked example_ext example_args
           (dict_merge MATERIAL_CONFIG SAMPLING_CONFIG) stale_world);
    reflexivity.
Defined.

(** ** The FNN path *)

Lemma fnn_data_frame (sk : Sklearn) (cols : list string) (rows : list (list pyobj)) :
  fnn_data sk (PyFrame cols rows)
  = fnn_from_partition sk (py_slice 0 135520 rows) (py_slice 135520 152720 rows)
      (py_slice 152720 169799 rows).
Proof.
  unfold fnn_data, fnn_from_partition, scale_with_train_statistics,
    fit_transform, transform, StandardScaler, iloc_values.
  unfold mbind, result_bind, mret, result_ret.
  destruct (std_fit sk (PyArray (py_slice 3 13 <$> py_slice 0 135520 rows)))
    as [e|px]; [reflexivity|].
  destruct (std_apply sk px (PyArray (py_slice 3 13 <$> py_slice 0 135520 rows)))
    as [e|a1]; [reflexivity|].
  destruct (std_apply sk px (PyArray (py_slice 3 13 <$> py_slice 135520 152720 rows)))
    as [e|a2]; [reflexivity|].
  destruct (std_apply sk px (PyArray (py_slice 3 13 <$> py_slice 152720 169799 rows)))
    as [e|a3]; [reflexivity|].
  destruct (std_fit sk (PyArray (py_slice 19 22 <$> py_slice 0 135520 rows)))
    as [e|py]; [reflexivity|].
  destruct (std_apply sk py (PyArray (py_slice 19 22 <$> py_slice 0 135520 rows)))
    as [e|b1]; [reflexivity|].
  destruct (std_apply sk py (PyArray (py_slice 19 22 <$> py_slice 135520 152720 rows)))
    as [e|b2]; [reflexivity|].
  destruct (std_apply sk py (PyArray (py_slice 19 22 <$> py_slice 152720 169799 rows)))
    as [e|b3]; reflexivity.
Qed.

(** C6: on the FNN path the feature scaler and the target scaler are each
    fitted on the train slice alone, and the validation and test slices are
    mapped with the statistics of that fit: [fnn_data] is the six slices
    followed by [scale_with_train_statistics] on the features and on the
    targets. *)
Theorem fnn_scalers_fit_on_train_only (sk : Sklearn) (DF : pyobj) :
  fnn_data sk DF
  = (x_train_og ← iloc_values DF 0 135520 3 13;
     y_train_og ← iloc_values DF 0 135520 19 22;
     x_val ← iloc_values DF 135520 152720 3 13;
     y_val ← iloc_values DF 135520 152720 19 22;
     x_test ← iloc_values DF 152720 169799 3 13;
     y_test ← iloc_values DF 152720 169799 19 22;
     '(x_train, x_val, x_test) ←
       scale_with_train_statistics sk x_train_og x_val x_test;
     '(y_train, y_val, y_test) ←
       scale_with_train_statistics sk y_train_og y_val y_test;
     mret (mkFnnData x_train y_train x_val y_val x_test y_test y_train_og)).
Proof.
  destruct DF as [| | | | | | |cols rows| |]; [reflexivity.. | | reflexivity | reflexivity].
  rewrite fnn_data_frame.
  unfold fnn_from_partition, iloc_values, mbind, result_bind. reflexivity.
Qed.

(** Spelled out for a run that succeeds: the statistics are those of the
    train slices, and every scaled array is [std_apply] of them. *)
Lemma fnn_data_statistics (sk : Sklearn) (cols : list string)
    (rows : list (list pyobj)) (d : FnnData) :
  fnn_data sk (PyFrame cols rows) = inr d ->
  exists px py : pyobj,
    std_fit sk (PyArray (py_slice 3 13 <$> py_slice 0 135520 rows)) = inr px
    /\ std_fit sk (PyArray (py_slice 19 22 <$> py_slice 0 135520 rows)) = inr py
    /\ std_apply sk px (PyArray (py_slice 3 13 <$> py_slice 0 135520 rows))
       = inr (x_train d)
    /\ std_apply sk px (PyArray (py_slice 3 13 <$> py_slice 135520 152720 rows))
       = inr (x_val d)
    /\ std_apply sk px (PyArray (py_slice 3 13 <$> py_slice 152720 169799 rows))
       = inr (x_test d)
    /\ std_apply sk py (PyArray (py_slice 19 22 <$> py_slice 0 135520 rows))
       = inr (y_train d)
    /\ std_apply sk py (PyArray (py_slice 19 22 <$> py_slice 135520 152720 rows))
       = inr (y_val d)
    /\ std_apply sk py (PyArray (py_slice 19 22 <$> py_slice 152720 169799 rows))
       = inr (y_test d)
    /\ y_train_og d = PyArray (py_slice 19 22 <$> py_slice 0 135520 rows).
Proof.
  rewrite fnn_data_frame.
  unfold fnn_from_partition, scale_with_train_statistics.
  unfold mbind, result_bind, mret, result_ret.
  destruct (std_fit sk (PyArray (py_slice 3 13 <$> py_slice 0 135520 rows)))
    as [e|px] eqn:H1; [discriminate|].
  destruct (std_apply sk px (PyArray (py_slice 3 13 <$> py_slice 0 135520 rows)))
    as [e|a1] eqn:H2; [discriminate|].
  destruct (std_apply sk px (PyArray (py_slice 3 13 <$> py_slice 135520 152720 rows)))
    as [e|a2] eqn:H3; [discriminate|].
  destruct (std_apply sk px (PyArray (py_slice 3 13 <$> py_slice 152720 169799 rows)))
    as [e|a3] eqn:H4; [discriminate|].
  destruct (std_fit sk (PyArray (py_slice 19 22 <$> py_slice 0 135520 rows)))
    as [e|py] eqn:H5; [discriminate|].
  destruct (std_apply sk py (PyArray (py_slice 19 22 <$> py_slice 0 135520 rows)))
    as [e|b1] eqn:H6; [discriminate|].
  destruct (std_apply sk py (PyArray (py_slice 19 22 <$> py_slice 135520 152720 rows)))
    as [e|b2] eqn:H7; [discriminate|].
  destruct (std_apply sk py (PyArray (py_slice 19 22 <$> py_slice 152720 169799 rows)))
    as [e|b3] eqn:H8; [discriminate|].
  intros [= <-]. exists px, py. repeat split; assumption || reflexivity.
Qed.

(** The FNN path succeeds on a frame long enough for the three ranges. *)
Example fnn_data_runs :
  is_ok (fnn_data example_sk (PyFrame uniform_cols (uniform_rows 1000 170))) = true.
Proof. vm_compute. reflexivity. Qed.

Lemma py_slice_lookup {A : Type} (a b : Z) (l : list A) (i : nat) (x : A) :
  0 <= a ->
  py_slice a b l !! i = Some x
  <-> a + Z.of_nat i < b /\ l !! (Z.to_nat a + i)%nat = Some x.
Proof.
  intros Ha. unfold py_slice. rewrite lookup_take_Some, lookup_drop.
  split; intros [H1 H2]; split; try assumption; lia.
Qed.

Lemma py_slice_app {A : Type} (a b c : Z) (l : list A) :
  0 <= a -> a <= b -> b <= c ->
  (py_slice a b l ++ py_slice b c l = py_slice a c l)%list.
Proof.
  intros Ha Hab Hbc. unfold py_slice.
  replace (drop (Z.to_nat b) l)
    with (drop (Z.to_nat (b - a)) (drop (Z.to_nat a) l))
    by (rewrite drop_drop; f_equal; lia).
  rewrite take_take_drop. f_equal. lia.
Qed.

(** C2, as the driver has it: the FNN path cuts the frame by row position.
    The i-th train row is row i of the frame, the i-th validation row is
    row 135520 + i and the i-th test row is row 152720 + i, whatever
    structure they belong to; together the three partitions are the first
    169799 rows, and the features, targets and scalers are computed from
    them. *)
Theorem fnn_partition_is_by_row_position (sk : Sklearn) (cols : list string)
    (rows : list (list pyobj)) :
  fnn_data sk (PyFrame cols rows)
  = fnn_from_partition sk (fnn_row_partition rows).1.1
      (fnn_row_partition rows).1.2 (fnn_row_partition rows).2
  /\ (forall (i : nat) (r : list pyobj),
        (fnn_row_partition rows).1.1 !! i = Some r
        <-> Z.of_nat i < 135520 /\ rows !! i = Some r)
  /\ (forall (i : nat) (r : list pyobj),
        (fnn_row_partition rows).1.2 !! i = Some r
        <-> 135520 + Z.of_nat i < 152720
            /\ rows !! (Z.to_nat 135520 + i)%nat = Some r)
  /\ (forall (i : nat) (r : list pyobj),
        (fnn_row_partition rows).2 !! i = Some r
        <-> 152720 + Z.of_nat i < 169799
            /\ rows !! (Z.to_nat 152720 + i)%nat = Some r)
  /\ ((fnn_row_partition rows).1.1 ++ (fnn_row_partition rows).1.2
        ++ (fnn_row_partition rows).2
      = py_slice 0 169799 rows)%list.
Proof.
  unfold fnn_row_partition; cbn [fst snd].
  split; [apply fnn_data_frame|].
  split; [intros i r; rewrite py_slice_lookup by lia; cbn [Z.to_nat Nat.add];
          split; intros [H1 H2]; split; try assumption; lia|].
  split; [intros i r; apply py_slice_lookup; lia|].
  split; [intros i r; apply py_slice_lookup; lia|].
  rewrite (py_slice_app 135520 152720 169799) by lia.
  apply py_slice_app; lia.
Qed.

(** C2 as claimed fails.  In a frame of 1000 structures with 140 rows each
    (Z_POINTS x X_POINTS x A_POINTS), row 112000 belongs to structure 800,
    which the configured ranges put in validation; the FNN path has it in
    train, and its test partition is empty.  In a frame of 1000 structures
    with 170 rows each, rows 135519 and 135520 both belong to structure
    797: one is the last train row, the other the first validation row. *)
Lemma fnn_partition_ignores_structures :
  getitem SAMPLING_CONFIG "SPLIT_IDX" = inr (PyInt 800)
  /\ (fnn_row_partition (uniform_rows 1000 140)).1.1 !! Z.to_nat 112000
     = Some (uniform_row 800)
  /\ (fnn_row_partition (uniform_rows 1000 140)).2 = []
  /\ (fnn_row_partition (uniform_rows 1000 170)).1.1 !! Z.to_nat 135519
     = Some (uniform_row 797)
  /\ (fnn_row_partition (uniform_rows 1000 170)).1.2 !! 0%nat
     = Some (uniform_row 797)
  /\ structure_id (uniform_row 797) = PyInt 797
  /\ structure_id (uniform_row 800) = PyInt 800.
Proof. vm_compute. repeat split. Qed.

(** ** What the driver logs *)

(** A computation only ever appends to the log. *)
Definition extends {A : Type} (m : M A) : Prop :=
  forall w : World, exists l : list Event, log (m w).2 = (log w ++ l)%list.

Lemma bind_run {A B : Type} (m : M A) (k : A -> M B) (w : World) :
  (m ≫= k) w
  = match m w with
    | (inl e, w') => (inl e, w')
    | (inr a, w') => k a w'
    end.
Proof. reflexivity. Qed.

Lemma extends_ret {A : Type} (a : A) : extends (mret a).
Proof. intros w. exists []. simpl. by rewrite app_nil_r. Qed.

Lemma extends_raise {A : Type} (e : exn) : extends (raise (A := A) e).
Proof. intros w. exists []. simpl. by rewrite app_nil_r. Qed.

Lemma extends_lift {A : Type} (r : exn + A) : extends (lift r).
Proof. intros w. exists []. simpl. by rewrite app_nil_r. Qed.

Lemma extends_emit (e : Event) : extends (emit e).
Proof. intros w. by exists [e]. Qed.

Lemma extends_pickle_load (path : string) : extends (pickle_load path).
Proof.
  intros w. unfold pickle_load. destruct (disk w !! path).
  - by exists [EvLoad path].
  - exists []. simpl. by rewrite app_nil_r.
Qed.

Lemma extends_pickle_dump (o : pyobj) (path : string) : extends (pickle_dump o path).
Proof. intros w. by exists [EvDump path o]. Qed.

Lemma extends_call (ext : Ext) (fn : string) (args : list pyobj)
    (kwargs : list (string * pyobj)) : extends (call ext fn args kwargs).
Proof. intros w. by exists [EvCall fn args kwargs]. Qed.

Lemma extends_bind {A B : Type} (m : M A) (k : A -> M B) :
  extends m -> (forall a, extends (k a)) -> extends (m ≫= k).
Proof.
  intros Hm Hk w. rewrite bind_run. destruct (Hm w) as [l1 Hl1].
  destruct (m w) as [[e|a] w1]; simpl in *.
  - by exists l1.
  - destruct (Hk a w1) as [l2 Hl2]. exists (l1 ++ l2)%list.
    by rewrite Hl2, Hl1, app_assoc.
Qed.

Ltac solve_extends :=
  repeat first
    [ apply extends_bind; [ | intro ]
    | apply extends_ret
    | apply extends_raise
    | apply extends_lift
    | apply extends_emit
    | apply extends_call
    | apply extends_pickle_load
    | apply extends_pickle_dump
    | match goal with
      | |- extends (if ?b then _ else _) => destruct b
      | |- extends (match ?x with _ => _ end) => destruct x
      end
    | progress cbv zeta ].

Lemma extends_pnn_path ext SAMPLING args DF E ZS xs H nu :
  extends (pnn_path ext SAMPLING args DF E ZS xs H nu).
Proof. unfold pnn_path, split_call. solve_extends. Qed.

Lemma extends_fnn_path ext sk args DF : extends (fnn_path ext sk args DF).
Proof. unfold fnn_path. solve_extends. Qed.

Lemma extends_gnn_path ext SAMPLING MODEL args FrameLarge Section_ DF E ZS xs H nu :
  extends (gnn_path ext SAMPLING MODEL args FrameLarge Section_ DF E ZS xs H nu).
Proof. unfold gnn_path, gnn_graphs, split_call. solve_extends. Qed.

Lemma extends_generate ext config : extends (generate ext config).
Proof. unfold generate. solve_extends. Qed.

Lemma extends_load_or_generate_data ext args config :
  extends (load_or_generate_data ext args config).
Proof.
  unfold load_or_generate_data.
  destruct (run_analysis args); solve_extends; apply extends_generate.
Qed.

Lemma extends_main ext sk MATERIAL SAMPLING MODEL args :
  extends (main ext sk MATERIAL SAMPLING MODEL args).
Proof.
  unfold main. solve_extends;
    first [ apply extends_load_or_generate_data | apply extends_pnn_path
          | apply extends_fnn_path | apply extends_gnn_path ].
Qed.

Lemma prefix_bind {A B : Type} (m : M A) (k : A -> M B) (w : World)
    (P : list Event) :
  (forall a, extends (k a)) ->
  (exists l, log (m w).2 = (P ++ l)%list) ->
  exists l, log ((m ≫= k) w).2 = (P ++ l)%list.
Proof.
  intros Hk [l1 Hl1]. rewrite bind_run.
  destruct (m w) as [[e|a] w1]; simpl in *.
  - by exists l1.
  - destruct (Hk a w1) as [l2 Hl2]. exists (l1 ++ l2)%list.
    by rewrite Hl2, Hl1, app_assoc.
Qed.

(** After a cached load, [main] calls generatesection. *)
Lemma main_cached_prefix ext sk MATERIAL SAMPLING MODEL args w f s a seed :
  opt_str_is (mode args) "eval" && negb (truthy (model_path args)) = false ->
  run_analysis args = false ->
  disk w !! path_join (data_path args) "frame_large.pkl" = Some f ->
  disk w !! path_join (data_path args) "section.pkl" = Some s ->
  getitems (main_generatesection_keys MATERIAL SAMPLING) = inr a ->
  getitem SAMPLING "SEED" = inr seed ->
  exists l,
    log (main ext sk MATERIAL SAMPLING MODEL args w).2
    = ((log w ++ [EvMkdir (data_path args);
                  EvLoad (path_join (data_path args) "frame_large.pkl");
                  EvLoad (path_join (data_path args) "section.pkl");
                  EvCall "generatesection" a [("seed", seed)]]) ++ l)%list.
Proof.
  intros Hc Hload Hf Hs Ha Hseed. unfold main. rewrite Hc.
  rewrite bind_run, cached_load by assumption. cbv zeta. rewrite Hf, Hs.
  fold (main_generatesection_keys MATERIAL SAMPLING). rewrite Ha, Hseed.
  rewrite bind_run. unfold lift at 1. rewrite bind_run. unfold lift at 1.
  apply prefix_bind.
  - intro r. solve_extends;
      first [ apply extends_pnn_path | apply extends_fnn_path
            | apply extends_gnn_path ].
  - exists []. unfold call, logged; simpl. by rewrite app_nil_r, <- app_assoc.
Qed.

(** When generatesection answers a pair, generate_query_points is called
    next, on the loaded structures. *)
Lemma main_cached_prefix_query ext sk MATERIAL SAMPLING MODEL args w f s a seed r sf b :
  opt_str_is (mode args) "eval" && negb (truthy (model_path args)) = false ->
  run_analysis args = false ->
  disk w !! path_join (data_path args) "frame_large.pkl" = Some f ->
  disk w !! path_join (data_path args) "section.pkl" = Some s ->
  getitems (main_generatesection_keys MATERIAL SAMPLING) = inr a ->
  getitem SAMPLING "SEED" = inr seed ->
  reply_val (ext "generatesection" a [("seed", seed)] (disk w) (rng w)) = inr r ->
  unpack 2 r = inr sf ->
  getitems (main_query_keys SAMPLING) = inr b ->
  exists l,
    log (main ext sk MATERIAL SAMPLING MODEL args w).2
    = ((log w ++ [EvMkdir (data_path args);
                  EvLoad (path_join (data_path args) "frame_large.pkl");
                  EvLoad (path_join (data_path args) "section.pkl");
                  EvCall "generatesection" a [("seed", seed)];
                  EvCall "generate_query_points" ([s] ++ b ++ [item sf 1]) []])
       ++ l)%list.
Proof.
  intros Hc Hload Hf Hs Ha Hseed Hr Hsf Hb. unfold main. rewrite Hc.
  rewrite bind_run, cached_load by assumption. cbv zeta. rewrite Hf, Hs.
  fold (main_generatesection_keys MATERIAL SAMPLING).
  fold (main_query_keys SAMPLING). rewrite Ha, Hseed, Hb.
  rewrite bind_run. unfold lift at 1. rewrite bind_run. unfold lift at 1.
  rewrite bind_run. unfold call at 1. cbn [disk rng logged]. rewrite Hr.
  rewrite bind_run. unfold lift at 1. rewrite Hsf.
  rewrite bind_run. unfold lift at 1.
  apply prefix_bind.
  - intro q. solve_extends;
      first [ apply extends_pnn_path | apply extends_fnn_path
            | apply extends_gnn_path ].
  - exists []. unfold call; simpl. by rewrite app_nil_r, <- !app_assoc.
Qed.

(** C3 as claimed fails: artifacts that do not fit the configuration (three
    structures where N_POINTS is 1000, a frame with no structure column)
    are loaded and returned without an error, and [main] goes on to hand
    the stale structures to generate_query_points. *)
Lemma stale_artifacts_load_silently :
  exists f s,
    (load_or_generate_data example_ext example_args
       (dict_merge MATERIAL_CONFIG SAMPLING_CONFIG) stale_world).1 = inr (f, s)
    /\ spec_schema_ok (dict_merge MATERIAL_CONFIG SAMPLING_CONFIG) f s = false
    /\ exists Frame l,
        log (main example_ext example_sk MATERIAL_CONFIG SAMPLING_CONFIG
               MODEL_CONFIG example_args stale_world).2
        = [EvMkdir "data"; EvLoad "data/frame_large.pkl";
           EvLoad "data/section.pkl";
           EvCall "generatesection" shipped_generatesection_args
             [("seed", PyInt 42)];
           EvCall "generate_query_points"
             [s; PyInt 1000; PyInt 10; PyInt 14; flt 4 10; ints [4; 4]; Frame] []]
          ++ l.
Proof.
  eexists _, _. split; [|split].
  - rewrite cached_load by reflexivity. reflexivity.
  - reflexivity.
  - destruct (main_cached_prefix_query example_ext example_sk MATERIAL_CONFIG
                SAMPLING_CONFIG MODEL_CONFIG example_args stale_world
                (PyFrame ["x"; "z"] [[PyInt 0; PyInt 0]])
                (PyFrame ["Structure"; "H"; "E"]
                   [[PyInt 0; PyInt 4; PyInt 500];
                    [PyInt 1; PyInt 6; PyInt 900];
                    [PyInt 2; PyInt 8; PyInt 700]])
                shipped_generatesection_args (PyInt 42)
                (example_sample shipped_generatesection_args 42).1
                (tuple_items (example_sample shipped_generatesection_args 42).1)
                [PyInt 1000; PyInt 10; PyInt 14; flt 4 10; ints [4; 4]])
      as [l Hl]; try reflexivity.
    eexists _, l. exact Hl.
Qed.

(** C5, as the driver has it: in load-cached mode [load_or_generate_data]
    takes both artifacts from disk and calls no collaborator; [main] then
    calls generatesection all the same and, once that answers a pair,
    generate_query_points on the loaded structures. *)
Theorem cached_run_loads_then_regenerates (ext : Ext) (sk : Sklearn)
    (MATERIAL SAMPLING MODEL : gmap string pyobj) (args : Args) (w : World)
    (f s seed r : pyobj) (a sf b : list pyobj) :
  opt_str_is (mode args) "eval" && negb (truthy (model_path args)) = false ->
  run_analysis args = false ->
  disk w !! path_join (data_path args) "frame_large.pkl" = Some f ->
  disk w !! path_join (data_path args) "section.pkl" = Some s ->
  getitems (main_generatesection_keys MATERIAL SAMPLING) = inr a ->
  getitem SAMPLING "SEED" = inr seed ->
  reply_val (ext "generatesection" a [("seed", seed)] (disk w) (rng w)) = inr r ->
  unpack 2 r = inr sf ->
  getitems (main_query_keys SAMPLING) = inr b ->
  load_or_generate_data ext args (dict_merge MATERIAL SAMPLING) w
  = (inr (f, s),
     logged w [EvMkdir (data_path args);
               EvLoad (path_join (data_path args) "frame_large.pkl");
               EvLoad (path_join (data_path args) "section.pkl")])
  /\ exists l,
      log (main ext sk MATERIAL SAMPLING MODEL args w).2
      = ((log w ++ [EvMkdir (data_path args);
                    EvLoad (path_join (data_path args) "frame_large.pkl");
                    EvLoad (path_join (data_path args) "section.pkl");
                    EvCall "generatesection" a [("seed", seed)];
                    EvCall "generate_query_points" ([s] ++ b ++ [item sf 1]) []])
         ++ l)%list.
Proof.
  intros Hc Hload Hf Hs Ha Hseed Hr Hsf Hb. split.
  - rewrite cached_load by assumption. cbv zeta. by rewrite Hf, Hs.
  - by apply (main_cached_prefix_query ext sk MATERIAL SAMPLING MODEL args w f s a seed r sf b).
Qed.

Lemma cached_run_loads_then_regenerates_witness :
  load_or_generate_data example_ext example_args
    (dict_merge MATERIAL_CONFIG SAMPLING_CONFIG) cached_world
  = (inr (generated.1, generated.2),
     logged cached_world
       [EvMkdir "data"; EvLoad "data/frame_large.pkl"; EvLoad "data/section.pkl"])
  /\ exists l,
      log (main example_ext example_sk MATERIAL_CONFIG SAMPLING_CONFIG
             MODEL_CONFIG example_args cached_world).2
      = (([EvMkdir "data"; EvLoad "data/frame_large.pkl";
                 EvLoad "data/section.pkl";
                 EvCall "generatesection" shipped_generatesection_args
                   [("seed", PyInt 42)];
                 EvCall "generate_query_points"
                   ([generated.2]
                    ++ [PyInt 1000; PyInt 10; PyInt 14; flt 4 10; ints [4; 4]]
                    ++ [item (tuple_items
                                (example_sample shipped_generatesection_args 42).1) 1])
                   []])
         ++ l)%list.
Proof.
  apply (cached_run_loads_then_regenerates example_ext example_sk
           MATERIAL_CONFIG SAMPLING_CONFIG MODEL_CONFIG example_args cached_world
           generated.1 generated.2 (PyInt 42)
           (example_sample shipped_generatesection_args 42).1
           shipped_generatesection_args
           (tuple_items (example_sample shipped_generatesection_args 42).1)
           [PyInt 1000; PyInt 10; PyInt 14; flt 4 10; ints [4; 4]]);
    reflexivity.
Defined.

(** C5 as claimed fails: with cached artifacts on disk and load-cached mode
    selected, the run of [main] calls generatesection right after the two
    loads. *)
Lemma cached_run_calls_generatesection :
  run_analysis example_args = false
  /\ exists l,
      log (main example_ext example_sk MATERIAL_CONFIG SAMPLING_CONFIG
             MODEL_CONFIG example_args cached_world).2
      = ([EvMkdir "data"; EvLoad "data/frame_large.pkl";
          EvLoad "data/section.pkl";
          EvCall "generatesection" shipped_generatesection_args
            [("seed", PyInt 42)]] ++ l)%list.
Proof.
  split; [reflexivity|].
  apply (main_cached_prefix example_ext example_sk MATERIAL_CONFIG
           SAMPLING_CONFIG MODEL_CONFIG example_args cached_world
           generated.1 generated.2 shipped_generatesection_args (PyInt 42));
    reflexivity.
Qed.

(** ** The split indices *)

Lemma getitem_insert_ne (d : gmap string pyobj) (k k' : string) (v : pyobj) :
  k <> k' -> getitem (<[k := v]> d) k' = getitem d k'.
Proof. intros Hne. unfold getitem. by rewrite lookup_insert_ne. Qed.

Lemma getitem_merge_insert_ne (MATERIAL SAMPLING : gmap string pyobj)
    (k k' : string) (v : pyobj) :
  k <> k' ->
  getitem (dict_merge MATERIAL (<[k := v]> SAMPLING)) k'
  = getitem (dict_merge MATERIAL SAMPLING) k'.
Proof.
  intros Hne. unfold getitem, dict_merge.
  by rewrite !lookup_union, lookup_insert_ne.
Qed.

Ltac other_keys :=
  rewrite ?getitem_merge_insert_ne, ?getitem_insert_ne by discriminate.

Lemma load_or_generate_data_split_indices ext args MATERIAL SAMPLING a b :
  load_or_generate_data ext args
    (dict_merge MATERIAL (<["SPLIT_IDX" := a]> (<["TEST_IDX" := b]> SAMPLING)))
  = load_or_generate_data ext args (dict_merge MATERIAL SAMPLING).
Proof.
  unfold load_or_generate_data, generate. cbn [getitems]. other_keys.
  reflexivity.
Qed.

(** C4, as the driver has it: [main] never checks the split indices.
    Outside the PNN and GNN paths they are not read at all, so the whole
    run, its outcome and every effect, is the same for any two values of
    SPLIT_IDX and TEST_IDX, in order or not. *)
Theorem split_indices_are_not_validated (ext : Ext) (sk : Sklearn)
    (MATERIAL SAMPLING MODEL : gmap string pyobj) (args : Args)
    (a b : pyobj) (w : World) :
  opt_str_is (model args) "PNN" = false ->
  opt_str_is (model args) "GNN" = false ->
  main ext sk MATERIAL (<["SPLIT_IDX" := a]> (<["TEST_IDX" := b]> SAMPLING))
    MODEL args w
  = main ext sk MATERIAL SAMPLING MODEL args w.
Proof.
  intros Hp Hg. unfold main. rewrite Hp, Hg.
  rewrite load_or_generate_data_split_indices.
  cbn [getitems]. other_keys. reflexivity.
Qed.

Lemma split_indices_are_not_validated_witness :
  main example_ext example_sk MATERIAL_CONFIG crossed_SAMPLING MODEL_CONFIG
    example_args cached_world
  = main example_ext example_sk MATERIAL_CONFIG SAMPLING_CONFIG MODEL_CONFIG
      example_args cached_world.
Proof.
  apply (split_indices_are_not_validated example_ext example_sk
           MATERIAL_CONFIG SAMPLING_CONFIG MODEL_CONFIG example_args
           (PyInt 900) (PyInt 800) cached_world); reflexivity.
Defined.

(** C4 as claimed fails: with SPLIT_IDX = 900 above TEST_IDX = 800 the run
    loads the artifacts and calls generatesection; no error precedes that
    work. *)
Lemma crossed_split_indices_still_run :
  getitem crossed_SAMPLING "SPLIT_IDX" = inr (PyInt 900)
  /\ getitem crossed_SAMPLING "TEST_IDX" = inr (PyInt 800)
  /\ ~ (0 < 900 < 800)
  /\ exists l,
      log (main example_ext example_sk MATERIAL_CONFIG crossed_SAMPLING
             MODEL_CONFIG example_args cached_world).2
      = ([EvMkdir "data"; EvLoad "data/frame_large.pkl";
          EvLoad "data/section.pkl";
          EvCall "generatesection" shipped_generatesection_args
            [("seed", PyInt 42)]] ++ l)%list.
Proof.
  split; [reflexivity|]. split; [reflexivity|]. split; [lia|].
  apply (main_cached_prefix example_ext example_sk MATERIAL_CONFIG
           crossed_SAMPLING MODEL_CONFIG example_args cached_world
           generated.1 generated.2 shipped_generatesection_args (PyInt 42));
    reflexivity.
Qed.

(** ** Generation is a function of configuration and seed *)

(** The value of a computation does not depend on the world it starts in. *)
Definition world_blind {A : Type} (m : M A) : Prop :=
  forall w1 w2 : World, (m w1).1 = (m w2).1.

Lemma world_blind_lift {A : Type} (r : exn + A) : world_blind (lift r).
Proof. by intros w1 w2. Qed.

Lemma world_blind_ret {A : Type} (a : A) : world_blind (mret a).
Proof. by intros w1 w2. Qed.

Lemma world_blind_bind {A B : Type} (m : M A) (k : A -> M B) :
  world_blind m -> (forall a, world_blind (k a)) -> world_blind (m ≫= k).
Proof.
  intros Hm Hk w1 w2. rewrite !bind_run. specialize (Hm w1 w2).
  destruct (m w1) as [[e1|a1] w1'], (m w2) as [[e2|a2] w2'];
    simpl in Hm; try discriminate.
  - by simplify_eq.
  - simplify_eq. apply Hk.
Qed.

Lemma world_blind_generatesection (P : Procedures) (others : Ext)
    (args : list pyobj) (kwargs : list (string * pyobj)) :
  world_blind (call (spec_ext P others) "generatesection" args kwargs).
Proof.
  intros w1 w2. unfold call, spec_ext; simpl. unfold spec_generatesection.
  destruct kwargs as [|[k [| | seed | | | | | | |]] [|]]; try reflexivity.
  destruct (String.eqb k "seed"); [|reflexivity].
  by destruct (sample P args (reseed P seed)).
Qed.

Lemma world_blind_generate_query_points (P : Procedures) (others : Ext)
    (args : list pyobj) (kwargs : list (string * pyobj)) :
  world_blind (call (spec_ext P others) "generate_query_points" args kwargs).
Proof. by intros w1 w2. Qed.

(** C7: with the collaborators as the specification describes them, a
    generation run yields the same structures and the same query-point
    frame from any two initial worlds: whatever the disk, the log and the
    state of the process-wide generator, the outcome is determined by the
    configuration, which holds the seed. *)
Theorem generation_is_deterministic (P : Procedures) (others : Ext)
    (config : gmap string pyobj) (w1 w2 : World) :
  (generate (spec_ext P others) config w1).1
  = (generate (spec_ext P others) config w2).1.
Proof.
  revert w1 w2. change (world_blind (generate (spec_ext P others) config)).
  unfold generate.
  repeat first
    [ apply world_blind_bind; [ | intro ]
    | apply world_blind_lift
    | apply world_blind_ret
    | apply world_blind_generatesection
    | apply world_blind_generate_query_points
    | progress cbv zeta ].
Qed.

(** Under the shipped configuration the generation run of
    [load_or_generate_data], which reads the merged dictionary, and the
    second run in [main], which reads the two dictionaries, call
    generatesection with the same arguments and the same seed. *)
Lemma shipped_generation_arguments :
  getitems (main_generatesection_keys MATERIAL_CONFIG SAMPLING_CONFIG)
  = inr shipped_generatesection_args
  /\ getitems (main_generatesection_keys shipped_config shipped_config)
     = inr shipped_generatesection_args
  /\ getitem SAMPLING_CONFIG "SEED" = inr (PyInt 42)
  /\ getitem shipped_config "SEED" = inr (PyInt 42).
Proof. vm_compute. repeat split. Qed.

(** So the structures [main] generates again are those of the first run,
    whatever happened to the world in between. *)
Lemma regenerated_structures_agree (P : Procedures) (others : Ext)
    (d1 d2 : gmap string pyobj) (g1 g2 : Z) :
  reply_val (spec_ext P others "generatesection" shipped_generatesection_args
               [("seed", PyInt 42)] d1 g1)
  = reply_val (spec_ext P others "generatesection" shipped_generatesection_args
                 [("seed", PyInt 42)] d2 g2).
Proof.
  apply (world_blind_generatesection P others shipped_generatesection_args
           [("seed", PyInt 42)]
           {| disk := d1; rng := g1; log := [] |}
           {| disk := d2; rng := g2; log := [] |}).
Qed.

(** ** Graphs and frame rows *)

Lemma concat_segment {A : Type} (L : list (list A)) (k : nat) (x : list A) :
  L !! k = Some x ->
  take (length x) (drop (sum_list (take k (length <$> L))) (concat L)) = x.
Proof.
  revert k. induction L as [|a L IH]; intros [|k] Hk; simplify_eq/=.
  - apply take_app_length.
  - rewrite drop_app_add. by apply IH.
Qed.

Lemma counts_as_nat (X : list pyobj) :
  mapM (M := option) as_nat
    ((fun x => PyInt (Z.of_nat (length (array_rows x)))) <$> X)
  = Some ((fun x => length (array_rows x)) <$> X).
Proof.
  apply mapM_Some. induction X as [|x X IH]; constructor; [|done].
  simpl. by rewrite Nat2Z.id.
Qed.

Lemma subgraph_nodes_batch (cls : string) (X : list pyobj) (labels e d : pyobj)
    (k : nat) (x : pyobj) :
  X !! k = Some x ->
  subgraph_nodes
    (PyObj cls
       [PyArray (concat (array_rows <$> X)); labels;
        PyList ((fun x => PyInt (Z.of_nat (length (array_rows x)))) <$> X); e; d]) k
  = Some (array_rows x).
Proof.
  intros Hk. unfold subgraph_nodes. rewrite counts_as_nat. simpl.
  rewrite list_lookup_fmap, Hk. simpl. f_equal.
  replace ((fun x => length (array_rows x)) <$> X)
    with (length <$> (array_rows <$> X))
    by (by rewrite <- list_fmap_compose).
  apply concat_segment. by rewrite list_lookup_fmap, Hk.
Qed.

Lemma call_train_val_test_generate P others args w :
  call (spec_ext P others) "train_val_test_generate" args [] w
  = (spec_train_val_test_generate P args,
     logged w [EvCall "train_val_test_generate" args []]).
Proof. reflexivity. Qed.

Lemma call_formation_of_matrices P others args w :
  call (spec_ext P others) "formation_of_matrices" args [] w
  = (spec_formation_of_matrices P args,
     logged w [EvCall "formation_of_matrices" args []]).
Proof. reflexivity. Qed.

Lemma call_graph P others fn args w :
  fn = "train_graph" \/ fn = "val_graph" \/ fn = "test_graph" ->
  call (spec_ext P others) fn args [] w
  = (spec_graph args, logged w [EvCall fn args []]).
Proof. intros [-> | [-> | ->]]; reflexivity. Qed.

Lemma valid_split_true (split_idx test_idx N : Z) :
  0 < split_idx < test_idx /\ test_idx < N ->
  valid_split split_idx test_idx N = true.
Proof.
  intros [[H1 H2] H3]. unfold valid_split.
  by rewrite (proj2 (Z.ltb_lt _ _) H1), (proj2 (Z.ltb_lt _ _) H2),
       (proj2 (Z.ltb_lt _ _) H3).
Qed.

Lemma split_call_spec P others SAMPLING cols rows idx split_idx test_idx N E ZS xs H nu w :
  getitems (split_keys SAMPLING) = inr [PyInt split_idx; PyInt test_idx; PyInt N] ->
  index_of "Structure" cols = Some idx ->
  0 < split_idx < test_idx /\ test_idx < N ->
  exists t l,
    split_call (spec_ext P others) SAMPLING (PyFrame cols rows) E ZS xs H nu w
    = (inr t, logged w l)
    /\ spec_train_val_test_generate P
         [PyFrame cols rows; E; ZS; xs; PyInt split_idx; PyInt test_idx; PyInt N; H; nu]
       = inr (PyTuple t).
Proof.
  intros Hk Hidx Hpre. unfold split_call. fold (split_keys SAMPLING).
  rewrite bind_run. unfold lift at 1. rewrite Hk.
  rewrite bind_run, call_train_val_test_generate.
  unfold spec_train_val_test_generate. cbn [app].
  rewrite (valid_split_true split_idx test_idx N Hpre). cbn [negb]. rewrite Hidx.
  eexists _, _. split; reflexivity.
Qed.

Lemma getitem0_fmap_seqZ (g : Z -> pyobj) (m n : Z) :
  0 < n -> getitem0 (PyList (g <$> seqZ m n)) = inr (g m).
Proof. intros Hn. rewrite seqZ_cons by lia. reflexivity. Qed.

Lemma unpack_tuple (n : nat) (l : list pyobj) :
  length l = n -> unpack n (PyTuple l) = inr l.
Proof. intros Hl. unfold unpack; simpl. by rewrite decide_True. Qed.

Lemma call_GAT P others args w :
  call (spec_ext P others) "GAT" args [] w
  = (reply_val (others "GAT" args [] (disk w) (rng w)),
     {| disk := reply_disk (others "GAT" args [] (disk w) (rng w));
        rng := reply_rng (others "GAT" args [] (disk w) (rng w));
        log := (log w ++ [EvCall "GAT" args []])%list |}).
Proof. reflexivity. Qed.

Lemma lookup_seqZ_offset (m n s : Z) :
  m <= s < m + n -> seqZ m n !! Z.to_nat (s - m) = Some s.
Proof. intros Hs. apply lookup_seqZ. lia. Qed.

Lemma subgraph_nodes_per_structure (cls : string) f idx rows (ids : list Z)
    (labels e d : pyobj) (k : nat) (s : Z) :
  ids !! k = Some s ->
  subgraph_nodes
    (PyObj cls
       [PyArray (concat (array_rows <$> ((fun s => PyArray (f <$> rows_of idx rows s)) <$> ids)));
        labels;
        PyList ((fun x => PyInt (Z.of_nat (length (array_rows x))))
                  <$> ((fun s => PyArray (f <$> rows_of idx rows s)) <$> ids));
        e; d]) k
  = Some (f <$> rows_of idx rows s).
Proof.
  intros Hk.
  rewrite (subgraph_nodes_batch cls _ labels e d k (PyArray (f <$> rows_of idx rows s)))
    by (by rewrite list_lookup_fmap, Hk).
  reflexivity.
Qed.

Ltac items := cbn [item lookup list_lookup default from_option id].

Ltac step := cbv beta iota; rewrite bind_run.

(** C8: with the collaborators as the specification describes them, and
    split indices that meet the precondition 0 < split_idx < test_idx < N,
    the graphs the GNN path builds keep the rows of the frame in order: for
    every structure of the train, validation and test ranges, the nodes of
    its subgraph in the batched graph are the features of its rows, in the
    order the frame holds them. *)
Theorem graph_nodes_follow_frame_rows (P : Procedures) (others : Ext)
    (SAMPLING MODEL : gmap string pyobj) (cols : list string)
    (rows : list (list pyobj)) (idx : nat) (split_idx test_idx N : Z)
    (dims : list pyobj) (model E ZS xs H nu : pyobj) (w : World) :
  getitems (split_keys SAMPLING) = inr [PyInt split_idx; PyInt test_idx; PyInt N] ->
  getitems (model_keys MODEL) = inr dims ->
  index_of "Structure" cols = Some idx ->
  0 < split_idx < test_idx /\ test_idx < N ->
  reply_val (others "GAT" dims [] (disk w) (rng w)) = inr model ->
  exists (g gv gt : pyobj) (w' : World),
    gnn_graphs (spec_ext P others) SAMPLING MODEL (PyFrame cols rows) E ZS xs H nu w
    = (inr (model, (g, gv, gt)), w')
    /\ forall s : Z,
        (0 <= s < split_idx ->
         subgraph_nodes g (Z.to_nat s)
         = Some (feature_of P (stats_of P (rows_in idx rows 0 split_idx))
                   <$> rows_of idx rows s))
        /\ (split_idx <= s < test_idx ->
            subgraph_nodes gv (Z.to_nat (s - split_idx))
            = Some (feature_of P (stats_of P (rows_in idx rows 0 split_idx))
                      <$> rows_of idx rows s))
        /\ (test_idx <= s < N ->
            subgraph_nodes gt (Z.to_nat (s - test_idx))
            = Some (feature_of P (stats_of P (rows_in idx rows 0 split_idx))
                      <$> rows_of idx rows s)).
Proof.
  intros Hk Hm Hidx Hpre Hgat. unfold gnn_graphs.
  fold (model_keys MODEL). rewrite Hm.
  destruct (split_call_spec P others SAMPLING cols rows idx split_idx test_idx N
              E ZS xs H nu w Hk Hidx Hpre) as (t & l & Hcall & Ht).
  step; rewrite Hcall.
  unfold spec_train_val_test_generate in Ht.
  rewrite (valid_split_true split_idx test_idx N Hpre) in Ht.
  cbn [negb] in Ht. rewrite Hidx in Ht.
  injection Ht as <-. clear Hcall. cbv zeta. items.
  set (st := stats_of P (rows_in idx rows 0 split_idx)).
  unfold per_structure.
  step. unfold print at 1, emit at 1.
  step. unfold lift at 1. rewrite getitem0_fmap_seqZ by lia.
  step. unfold print at 1, emit at 1.
  step; rewrite call_formation_of_matrices.
  unfold spec_formation_of_matrices, matrices.
  cbn [list_items mbind option_bind].
  step. unfold lift at 1. rewrite unpack_tuple by reflexivity.
  items.
  step. unfold lift at 1.
  step; rewrite call_GAT. cbn [disk rng logged]. rewrite Hgat.
  step. unfold print at 1, emit at 1.
  step. unfold lift at 1.
  step. unfold print at 1, emit at 1.
  step; rewrite (call_graph P others "train_graph") by tauto; unfold spec_graph at 1.
  step; rewrite (call_graph P others "val_graph") by tauto; unfold spec_graph at 1.
  step; rewrite (call_graph P others "test_graph") by tauto; unfold spec_graph at 1.
  cbv beta iota.
  eexists _, _, _, _. split; [reflexivity|].
  intros s. repeat split; intros Hs.
  - apply subgraph_nodes_per_structure.
    replace (Z.to_nat s) with (Z.to_nat (s - 0)) by (f_equal; lia).
    apply lookup_seqZ_offset. lia.
  - apply subgraph_nodes_per_structure. apply lookup_seqZ_offset. lia.
  - apply subgraph_nodes_per_structure. apply lookup_seqZ_offset. lia.
Qed.

Lemma graph_nodes_follow_frame_rows_witness :
  exists (g gv gt : pyobj) (w' : World),
    gnn_graphs (spec_ext whole_row_procedures example_others)
      small_SAMPLING MODEL_CONFIG interleaved_frame
      PyNone PyNone PyNone PyNone PyNone empty_world
    = (inr (PyObj "GAT"
              [PyObj "Parameter"
                 [PyInt 5; PyInt 128; PyInt 90; PyInt 3; PyInt 10]],
            (g, gv, gt)), w')
    /\ subgraph_nodes g 0
       = Some [[PyInt 0; PyInt 0; PyInt 0; PyInt 10];
               [PyInt 0; PyInt 1; PyInt 0; PyInt 20]]
    /\ subgraph_nodes g 1
       = Some [[PyInt 1; PyInt 0; PyInt 0; PyInt 11];
               [PyInt 1; PyInt 1; PyInt 0; PyInt 21]]
    /\ subgraph_nodes gv 0
       = Some [[PyInt 2; PyInt 0; PyInt 0; PyInt 12];
               [PyInt 2; PyInt 1; PyInt 0; PyInt 22]]
    /\ subgraph_nodes gt 0
       = Some [[PyInt 3; PyInt 0; PyInt 0; PyInt 13];
               [PyInt 3; PyInt 1; PyInt 0; PyInt 23]].
Proof.
  destruct (graph_nodes_follow_frame_rows whole_row_procedures example_others
              small_SAMPLING MODEL_CONFIG ["Structure"; "x"; "z"; "f0"]
              interleaved_rows 0%nat 2 3 4
              [PyInt 5; PyInt 128; PyInt 90; PyInt 3; PyInt 10]
              (PyObj "GAT"
                 [PyObj "Parameter"
                    [PyInt 5; PyInt 128; PyInt 90; PyInt 3; PyInt 10]])
              PyNone PyNone PyNone PyNone PyNone empty_world)
    as (g & gv & gt & w' & Hrun & Hnodes);
    [reflexivity | reflexivity | reflexivity | lia | reflexivity |].
  exists g, gv, gt, w'. split; [exact Hrun|].
  destruct (Hnodes 0) as (H0 & _ & _).
  destruct (Hnodes 1) as (H1 & _ & _).
  destruct (Hnodes 2) as (_ & H2 & _).
  destruct (Hnodes 3) as (_ & _ & H3).
  split_and!; [apply H0 | apply H1 | apply H2 | apply H3]; lia.
Defined.

(** On a frame that interleaves four structures, the nodes of each
    subgraph are the structure's rows in frame order. *)
Example interleaved_frame_graphs :
  let r := (gnn_graphs (spec_ext whole_row_procedures example_others)
              small_SAMPLING MODEL_CONFIG interleaved_frame
              PyNone PyNone PyNone PyNone PyNone empty_world).1 in
  match r with
  | inr (_, (g, gv, gt)) =>
      subgraph_nodes g 1
      = Some [[PyInt 1; PyInt 0; PyInt 0; PyInt 11];
              [PyInt 1; PyInt 1; PyInt 0; PyInt 21]]
      /\ subgraph_nodes gv 0
         = Some [[PyInt 2; PyInt 0; PyInt 0; PyInt 12];
                 [PyInt 2; PyInt 1; PyInt 0; PyInt 22]]
      /\ subgraph_nodes gt 0
         = Some [[PyInt 3; PyInt 0; PyInt 0; PyInt 13];
                 [PyInt 3; PyInt 1; PyInt 0; PyInt 23]]
  | inl _ => False
  end.
Proof. vm_compute. repeat split. Qed.

(** ** Runs on concrete inputs *)

(** A generation run on the GNN path: both generation calls, the split,
    the matrices, the model, the three graphs and the training loop. *)
Example gnn_generation_run :
  let r := main example_ext example_sk MATERIAL_CONFIG small_SAMPLING
             MODEL_CONFIG gnn_train_args empty_world in
  r.1 = inr tt
  /\ call_names (log r.2)
     = ["generatesection"; "generate_query_points"; "analysis";
        "generatesection"; "generate_query_points"; "remove_strain_z";
        "train_val_test_generate"; "formation_of_matrices"; "GAT";
        "train_graph"; "val_graph"; "test_graph"; "training_loop"].
Proof. vm_compute. split; reflexivity. Qed.

(** Two generation runs from worlds that differ in generator state and
    disk give the same artifacts. *)
Example generation_from_two_worlds :
  let w2 := {| disk := {[ "data/ZS.pkl" := PyNone ]}; rng := 7; log := [] |} in
  let r1 := (generate example_ext (dict_merge MATERIAL_CONFIG small_SAMPLING)
               empty_world).1 in
  let r2 := (generate example_ext (dict_merge MATERIAL_CONFIG small_SAMPLING)
               w2).1 in
  r1 = r2 /\ is_ok r1 = true.
Proof. vm_compute. split; reflexivity. Qed.

(** * Further properties *)

(** ** The events of a run *)

Lemma emits_ret {A : Type} (P : Event -> Prop) (a : A) : emits P (mret a).
Proof. intros w. exists []. simpl. by rewrite app_nil_r. Qed.

Lemma emits_raise {A : Type} (P : Event -> Prop) (e : exn) :
  emits P (raise (A := A) e).
Proof. intros w. exists []. simpl. by rewrite app_nil_r. Qed.

Lemma emits_lift {A : Type} (P : Event -> Prop) (r : exn + A) : emits P (lift r).
Proof. intros w. exists []. simpl. by rewrite app_nil_r. Qed.

Lemma emits_emit (P : Event -> Prop) (e : Event) : P e -> emits P (emit e).
Proof. intros He w. exists [e]. split; [done | by constructor]. Qed.

Lemma emits_pickle_load (P : Event -> Prop) (path : string) :
  P (EvLoad path) -> emits P (pickle_load path).
Proof.
  intros He w. unfold pickle_load. destruct (disk w !! path).
  - exists [EvLoad path]. split; [done | by constructor].
  - exists []. simpl. by rewrite app_nil_r.
Qed.

Lemma emits_pickle_dump (P : Event -> Prop) (o : pyobj) (path : string) :
  P (EvDump path o) -> emits P (pickle_dump o path).
Proof. intros He w. exists [EvDump path o]. split; [done | by constructor]. Qed.

Lemma emits_call (P : Event -> Prop) (ext : Ext) (fn : string)
    (args : list pyobj) (kwargs : list (string * pyobj)) :
  P (EvCall fn args kwargs) -> emits P (call ext fn args kwargs).
Proof.
  intros He w. exists [EvCall fn args kwargs]. split; [done | by constructor].
Qed.

Lemma emits_bind {A B : Type} (P : Event -> Prop) (m : M A) (k : A -> M B) :
  emits P m -> (forall a, emits P (k a)) -> emits P (m ≫= k).
Proof.
  intros Hm Hk w. rewrite bind_run. destruct (Hm w) as (l1 & Hl1 & HP1).
  destruct (m w) as [[e|a] w1]; simpl in *.
  - by exists l1.
  - destruct (Hk a w1) as (l2 & Hl2 & HP2). exists (l1 ++ l2). split.
    + by rewrite Hl2, Hl1, app_assoc.
    + by apply Forall_app.
Qed.

(** Decomposes a computation; what is left are the events themselves. *)
Ltac split_emits :=
  repeat first
    [ apply emits_bind; [ | intro ]
    | apply emits_ret
    | apply emits_raise
    | apply emits_lift
    | apply emits_emit
    | apply emits_call
    | apply emits_pickle_load
    | apply emits_pickle_dump
    | match goal with
      | |- emits _ (if ?b then _ else _) => destruct b eqn:?
      | |- emits _ (match ?x with _ => _ end) => destruct x
      end
    | progress cbv zeta ].

Ltac flags :=
  repeat match goal with
  | H : opt_str_is _ _ = _ |- _ => rewrite H
  | H : run_analysis _ = _ |- _ => rewrite H
  end.

Ltac allowed :=
  first [ reflexivity
        | cbn; flags; reflexivity
        | cbn; flags; cbn; tauto
        | cbn; tauto ].

Lemma opt_str_is_true (o : option string) (lit : string) :
  opt_str_is o lit = true <-> o = Some lit.
Proof.
  destruct o as [s|]; simpl; [|split; discriminate].
  rewrite String.eqb_eq. split; [by intros -> | by intros [= ->]].
Qed.

Lemma opt_str_is_exclusive (o : option string) (a b : string) :
  a <> b -> opt_str_is o a = true -> opt_str_is o b = false.
Proof.
  intros Hne Ha. apply opt_str_is_true in Ha as ->. simpl.
  by apply String.eqb_neq.
Qed.

Lemma emits_generate ext args config :
  emits (event_allowed args) (generate ext config).
Proof. unfold generate. split_emits; allowed. Qed.

Lemma emits_load_or_generate_data ext args config :
  emits (event_allowed args) (load_or_generate_data ext args config).
Proof.
  unfold load_or_generate_data.
  split_emits; try apply emits_generate; allowed.
Qed.

Lemma emits_pnn_path ext SAMPLING args DF E ZS xs H nu :
  opt_str_is (model args) "PNN" = true ->
  emits (event_allowed args) (pnn_path ext SAMPLING args DF E ZS xs H nu).
Proof. intros Hm. unfold pnn_path, split_call. split_emits; allowed. Qed.

Lemma emits_fnn_path ext sk args DF :
  opt_str_is (model args) "FNN" = true ->
  emits (event_allowed args) (fnn_path ext sk args DF).
Proof. intros Hm. unfold fnn_path. split_emits; allowed. Qed.

Lemma emits_gnn_path ext SAMPLING MODEL args FrameLarge Section_ DF E ZS xs H nu :
  opt_str_is (model args) "PNN" = false ->
  opt_str_is (model args) "GNN" = true ->
  emits (event_allowed args)
    (gnn_path ext SAMPLING MODEL args FrameLarge Section_ DF E ZS xs H nu).
Proof.
  intros Hp Hm. unfold gnn_path, gnn_graphs, split_call.
  split_emits; allowed.
Qed.

(** Every step of [main] is one its arguments select. *)
Lemma main_events_allowed ext sk MATERIAL SAMPLING MODEL args :
  emits (event_allowed args) (main ext sk MATERIAL SAMPLING MODEL args).
Proof.
  unfold main. split_emits;
    try apply emits_load_or_generate_data;
    try (by apply emits_pnn_path);
    try (by apply emits_fnn_path);
    try (by apply emits_gnn_path);
    allowed.
Qed.

Lemma call_allowed_known (args : Args) (fn : string) :
  call_allowed args fn = true -> In fn all_functions.
Proof.
  unfold call_allowed, name_in, preprocessing_functions, graph_functions.
  cbn [existsb].
  repeat match goal with
  | |- context [String.eqb fn ?lit] =>
      destruct (String.eqb_spec fn lit) as [->|_];
        [intros _; cbn; tauto | cbn [orb]]
  end.
  discriminate.
Qed.

(** X1: a training function is called only in train mode and an evaluation
    function only in eval mode, whatever the collaborators do. *)
Theorem mode_selects_training_or_evaluation (ext : Ext) (sk : Sklearn)
    (MATERIAL SAMPLING MODEL : gmap string pyobj) (args : Args) (w : World) :
  exists l : list Event,
    log (main ext sk MATERIAL SAMPLING MODEL args w).2 = log w ++ l
    /\ forall fn a k,
        In (EvCall fn a k) l ->
        (In fn training_functions -> mode args = Some "train")
        /\ (In fn evaluation_functions -> mode args = Some "eval").
Proof.
  destruct (main_events_allowed ext sk MATERIAL SAMPLING MODEL args w)
    as (l & Hl & HP).
  exists l. split; [exact Hl|]. intros fn a k Hin.
  rewrite List.Forall_forall in HP. specialize (HP _ Hin). simpl in HP.
  split; intros Hfn; cbn in Hfn; destruct_or?; subst; try done;
    cbn in HP; apply andb_true_iff in HP as [_ HP];
    by apply opt_str_is_true.
Qed.

(** X2: the functions of a model are called only when that model is
    selected, the split only for PNN and GNN, and no function outside the
    sixteen the driver names is ever called. *)
Theorem model_selects_functions (ext : Ext) (sk : Sklearn)
    (MATERIAL SAMPLING MODEL : gmap string pyobj) (args : Args) (w : World) :
  exists l : list Event,
    log (main ext sk MATERIAL SAMPLING MODEL args w).2 = log w ++ l
    /\ forall fn a k,
        In (EvCall fn a k) l ->
        In fn all_functions
        /\ (In fn ["training_nn"; "evaluate_PNN"] -> model args = Some "PNN")
        /\ (In fn ["training_FNN"; "evaluate_FNN"] -> model args = Some "FNN")
        /\ (In fn (graph_functions ++ ["training_loop"; "evaluate_GNN"]) ->
            model args = Some "GNN")
        /\ (fn = "train_val_test_generate" ->
            model args = Some "PNN" \/ model args = Some "GNN").
Proof.
  destruct (main_events_allowed ext sk MATERIAL SAMPLING MODEL args w)
    as (l & Hl & HP).
  exists l. split; [exact Hl|]. intros fn a k Hin.
  rewrite List.Forall_forall in HP. specialize (HP _ Hin). simpl in HP.
  split; [by apply (call_allowed_known args)|].
  split_and!; intros Hfn; cbn in Hfn; destruct_or?; subst; try done;
    cbn in HP;
    repeat match goal with
    | H : _ && _ = true |- _ => apply andb_true_iff in H as [? ?]
    end;
    try (by apply opt_str_is_true).
  apply orb_true_iff in HP as [HP|HP]; [left|right]; by apply opt_str_is_true.
Qed.

(** X3: [main] itself writes a pickle only when run_analysis is set, and
    then only ZS.pkl, xs.pkl and batched_graph.pkl in the data directory;
    analysis is called only when run_analysis is set. *)
Theorem writes_need_run_analysis (ext : Ext) (sk : Sklearn)
    (MATERIAL SAMPLING MODEL : gmap string pyobj) (args : Args) (w : World) :
  exists l : list Event,
    log (main ext sk MATERIAL SAMPLING MODEL args w).2 = log w ++ l
    /\ (forall path o,
          In (EvDump path o) l ->
          run_analysis args = true /\ In path (dump_paths args))
    /\ (forall a k, In (EvCall "analysis" a k) l -> run_analysis args = true).
Proof.
  destruct (main_events_allowed ext sk MATERIAL SAMPLING MODEL args w)
    as (l & Hl & HP).
  exists l. split; [exact Hl|]. rewrite List.Forall_forall in HP.
  split.
  - intros path o Hin. exact (HP _ Hin).
  - intros a k Hin. exact (HP _ Hin).
Qed.

(** ** The model-path check and the cache files *)

Lemma truthy_false (o : option string) :
  truthy o = false <-> o = None \/ o = Some "".
Proof.
  destruct o as [s|]; simpl.
  - rewrite negb_false_iff, String.eqb_eq. split.
    + intros ->. by right.
    + by intros [|[= ->]].
  - split; [by left | done].
Qed.

Lemma main_starts_with_mkdir ext sk MATERIAL SAMPLING MODEL args w :
  opt_str_is (mode args) "eval" && negb (truthy (model_path args)) = false ->
  exists l,
    log (main ext sk MATERIAL SAMPLING MODEL args w).2
    = (log w ++ [EvMkdir (data_path args)]) ++ l.
Proof.
  intros Hc. unfold main. rewrite Hc. apply prefix_bind.
  - intros [FrameLarge Section_]. solve_extends;
      first [ apply extends_pnn_path | apply extends_fnn_path
            | apply extends_gnn_path ].
  - unfold load_or_generate_data. apply prefix_bind.
    + intros []. cbv zeta. destruct (run_analysis args); solve_extends.
    + exists []. unfold mkdir, emit, logged; simpl. by rewrite app_nil_r.
Qed.

(** X4: the model-path check fires exactly in eval mode with a model path
    that is missing or empty; only then does [main] raise that error with
    the world untouched.  In every other case the run starts by creating
    the data directory. *)
Theorem model_path_check_fires_exactly (ext : Ext) (sk : Sklearn)
    (MATERIAL SAMPLING MODEL : gmap string pyobj) (args : Args) (w : World) :
  main ext sk MATERIAL SAMPLING MODEL args w
  = (inl (ValueError "--model_path must be provided when --mode is 'eval'."), w)
  <-> mode args = Some "eval"
      /\ (model_path args = None \/ model_path args = Some "").
Proof.
  rewrite <- opt_str_is_true, <- truthy_false.
  destruct (opt_str_is (mode args) "eval" && negb (truthy (model_path args)))
    eqn:Hc.
  - apply andb_true_iff in Hc as [Hm Hp]. apply negb_true_iff in Hp.
    split; [done|]. intros _. unfold main. by rewrite Hm, Hp.
  - split.
    + intros Hrun.
      destruct (main_starts_with_mkdir ext sk MATERIAL SAMPLING MODEL args w Hc)
        as [l Hl].
      rewrite Hrun in Hl. simpl in Hl. apply (f_equal length) in Hl.
      rewrite !length_app in Hl. simpl in Hl. lia.
    + intros [Hm Hp]. by rewrite Hm, Hp in Hc.
Qed.





Lemma generate_mode_success ext args config w f s w' :
  run_analysis args = true ->
  load_or_generate_data ext args config w = (inr (f, s), w') ->
  disk w' !! path_join (data_path args) "frame_large.pkl" = Some f
  /\ disk w' !! path_join (data_path args) "section.pkl" = Some s.
Proof.
  intros H1. unfold load_or_generate_data. rewrite H1. cbv zeta.
  rewrite bind_run. unfold mkdir at 1, emit at 1.
  rewrite bind_run.
  destruct (generate ext config (logged w [EvMkdir (data_path args)]))
    as [[e|[F S]] w1]; [discriminate|].
  rewrite bind_run.
  destruct (call ext "analysis" _ _ w1) as [[e|v] w2]; [discriminate|].
  rewrite bind_run. unfold pickle_load at 1.
  destruct (disk w2 !! path_join (data_path args) "frame_large.pkl")
    as [o1|] eqn:Hf; [|discriminate].
  rewrite bind_run. unfold pickle_load at 1. cbn [disk logged].
  destruct (disk w2 !! path_join (data_path args) "section.pkl")
    as [o2|] eqn:Hs; [|discriminate].
  cbn. intros [= <- <- <-]. by split.
Qed.

(** X7: what a generation run returns is what it reads back from the two
    pickle files, so a load-cached run on the world it leaves behind, with
    the same data directory, returns the same frame and structures. *)
Theorem generate_then_reload (ext : Ext) (a1 a2 : Args)
    (config config' : gmap string pyobj) (w : World) (f s : pyobj) :
  run_analysis a1 = true ->
  run_analysis a2 = false ->
  data_path a2 = data_path a1 ->
  (load_or_generate_data ext a1 config w).1 = inr (f, s) ->
  (load_or_generate_data ext a2 config'
     (load_or_generate_data ext a1 config w).2).1 = inr (f, s)
  /\ disk (load_or_generate_data ext a1 config w).2
       !! path_join (data_path a1) "frame_large.pkl" = Some f
  /\ disk (load_or_generate_data ext a1 config w).2
       !! path_join (data_path a1) "section.pkl" = Some s.
Proof.
  intros H1 H2 Hp Hok.
  destruct (load_or_generate_data ext a1 config w) as [r w'] eqn:Hrun.
  simpl in *. subst r.
  destruct (generate_mode_success ext a1 config w f s w' H1 Hrun) as [Hf Hs].
  split; [|by split].
  rewrite cached_load by assumption. cbv zeta. rewrite Hp. by rewrite Hf, Hs.
Qed.

Lemma generate_then_reload_witness :
  (load_or_generate_data example_ext example_args shipped_config
     (load_or_generate_data example_ext gnn_train_args small_config
        empty_world).2).1
  = inr (small_generated.1, small_generated.2)
  /\ disk (load_or_generate_data example_ext gnn_train_args small_config
             empty_world).2
       !! path_join (data_path gnn_train_args) "frame_large.pkl"
     = Some small_generated.1
  /\ disk (load_or_generate_data example_ext gnn_train_args small_config
             empty_world).2
       !! path_join (data_path gnn_train_args) "section.pkl"
     = Some small_generated.2.
Proof.
  apply (generate_then_reload example_ext gnn_train_args example_args
           small_config shipped_config empty_world
           small_generated.1 small_generated.2);
    [reflexivity | reflexivity | reflexivity | vm_compute; reflexivity].
Defined.

(** ** The two generation call sites *)

Lemma getitem_merge_left (MATERIAL SAMPLING : gmap string pyobj) (k : string) :
  MATERIAL !! k = None ->
  getitem (dict_merge MATERIAL SAMPLING) k = getitem SAMPLING k.
Proof.
  intros Hk. unfold getitem, dict_merge. rewrite lookup_union, Hk.
  by destruct (SAMPLING !! k).
Qed.

Lemma getitem_merge_right (MATERIAL SAMPLING : gmap string pyobj) (k : string) :
  SAMPLING !! k = None ->
  getitem (dict_merge MATERIAL SAMPLING) k = getitem MATERIAL k.
Proof.
  intros Hk. unfold getitem, dict_merge. rewrite lookup_union, Hk.
  by destruct (MATERIAL !! k).
Qed.

(** X8: when neither dictionary holds a key the driver reads from the other,
    the generation run of [load_or_generate_data], which reads the merged
    dictionary, and the second run in [main], which reads the two
    dictionaries, look up the same generatesection arguments, the same seed
    and the same generate_query_points arguments, or fail on the same
    key. *)
Theorem generation_call_sites_agree (MATERIAL SAMPLING : gmap string pyobj) :
  (forall k, In k material_keys -> SAMPLING !! k = None) ->
  (forall k, In k sampling_keys -> MATERIAL !! k = None) ->
  getitems (main_generatesection_keys (dict_merge MATERIAL SAMPLING)
              (dict_merge MATERIAL SAMPLING))
  = getitems (main_generatesection_keys MATERIAL SAMPLING)
  /\ getitem (dict_merge MATERIAL SAMPLING) "SEED" = getitem SAMPLING "SEED"
  /\ getitems (main_query_keys (dict_merge MATERIAL SAMPLING))
     = getitems (main_query_keys SAMPLING).
Proof.
  intros Hm Hs.
  unfold main_generatesection_keys, main_query_keys. cbn [getitems].
  repeat match goal with
  | |- context [getitem (dict_merge MATERIAL SAMPLING) ?k] =>
      first
        [ rewrite (getitem_merge_left MATERIAL SAMPLING k)
            by (apply Hs; cbn; tauto)
        | rewrite (getitem_merge_right MATERIAL SAMPLING k)
            by (apply Hm; cbn; tauto) ]
  end.
  done.
Qed.

Lemma generation_call_sites_agree_witness :
  getitems (main_generatesection_keys
              (dict_merge MATERIAL_CONFIG SAMPLING_CONFIG)
              (dict_merge MATERIAL_CONFIG SAMPLING_CONFIG))
  = getitems (main_generatesection_keys MATERIAL_CONFIG SAMPLING_CONFIG)
  /\ getitem (dict_merge MATERIAL_CONFIG SAMPLING_CONFIG) "SEED"
     = getitem SAMPLING_CONFIG "SEED"
  /\ getitems (main_query_keys (dict_merge MATERIAL_CONFIG SAMPLING_CONFIG))
     = getitems (main_query_keys SAMPLING_CONFIG).
Proof.
  apply (generation_call_sites_agree MATERIAL_CONFIG SAMPLING_CONFIG);
    intros k Hk; cbn in Hk; destruct_or?; subst; done.
Defined.

(** ** The GNN path *)

(** X9: on the GNN path outside eval mode an unsupported optimizer name is
    reported only after the split, the matrices, the model and all three
    graphs have been built and, when run_analysis is set, after
    batched_graph.pkl has been written; this also holds when no mode is
    given and nothing would be trained. *)
Theorem gnn_optimizer_checked_after_graphs (ext : Ext)
    (SAMPLING MODEL : gmap string pyobj) (args : Args)
    (FrameLarge Section_ DF E ZS xs H nu : pyobj) (w : World)
    (train_df model g gv gt : pyobj) :
  gnn_train_df SAMPLING FrameLarge = inr train_df ->
  (gnn_graphs ext SAMPLING MODEL DF E ZS xs H nu w).1
    = inr (model, (g, gv, gt)) ->
  opt_str_is (mode args) "eval" = false ->
  optimizer args <> "Adam" ->
  gnn_path ext SAMPLING MODEL args FrameLarge Section_ DF E ZS xs H nu w
  = (inl (ValueError ("Unsupported optimizer type: " +:+ optimizer args)),
     ((if run_analysis args
       then pickle_dump g (path_join (data_path args) "batched_graph.pkl")
       else mret tt)
        (gnn_graphs ext SAMPLING MODEL DF E ZS xs H nu w).2).2).
Proof.
  intros Hdf Hg Hmode Hopt. unfold gnn_path.
  rewrite bind_run. unfold lift at 1. rewrite Hdf.
  rewrite bind_run.
  destruct (gnn_graphs ext SAMPLING MODEL DF E ZS xs H nu w) as [r w1].
  simpl in Hg. subst r. cbn [snd].
  rewrite bind_run.
  destruct (run_analysis args); cbn; rewrite Hmode; rewrite bind_run;
    unfold lift at 1; by rewrite choose_optimizer_other.
Qed.

Lemma gnn_optimizer_checked_after_graphs_witness :
  gnn_path small_ext small_SAMPLING MODEL_CONFIG sgd_args boundary_frame PyNone
    interleaved_frame PyNone PyNone PyNone PyNone PyNone empty_world
  = (inl (ValueError ("Unsupported optimizer type: " +:+ optimizer sgd_args)),
     ((if run_analysis sgd_args
       then pickle_dump small_graphs.2.1.1
              (path_join (data_path sgd_args) "batched_graph.pkl")
       else mret tt)
        (gnn_graphs small_ext small_SAMPLING MODEL_CONFIG interleaved_frame
           PyNone PyNone PyNone PyNone PyNone empty_world).2).2).
Proof.
  apply (gnn_optimizer_checked_after_graphs small_ext small_SAMPLING
           MODEL_CONFIG sgd_args boundary_frame PyNone interleaved_frame
           PyNone PyNone PyNone PyNone PyNone empty_world
           (PyFrame ["Strain_Z"; "Strain_R"; "Strain_T"] [])
           small_graphs.1 small_graphs.2.1.1 small_graphs.2.1.2 small_graphs.2.2);
    [vm_compute; reflexivity | vm_compute; reflexivity | reflexivity
    | discriminate].
Defined.

(** X10: when the split hands back an empty TRAIN list, the GNN path raises
    IndexError at [print(TRAIN[0])], right after printing "Here"; no matrix
    is formed, no model built and no graph made. *)
Theorem empty_train_list_raises (ext : Ext) (SAMPLING MODEL : gmap string pyobj)
    (DF E ZS xs H nu : pyobj) (w : World) (t : list pyobj) :
  (split_call ext SAMPLING DF E ZS xs H nu w).1 = inr t ->
  item t 0 = PyList [] ->
  gnn_graphs ext SAMPLING MODEL DF E ZS xs H nu w
  = (inl (IndexError "index out of range"),
     logged (split_call ext SAMPLING DF E ZS xs H nu w).2
       [EvPrint (PyStr "Here")]).
Proof.
  intros Ht H0. unfold gnn_graphs. rewrite bind_run.
  destruct (split_call ext SAMPLING DF E ZS xs H nu w) as [r w1].
  simpl in Ht. subst r. cbv zeta. cbn [snd]. rewrite H0.
  rewrite bind_run. unfold print at 1, emit at 1.
  rewrite bind_run. reflexivity.
Qed.

Lemma empty_train_list_raises_witness :
  gnn_graphs empty_split_ext small_SAMPLING MODEL_CONFIG interleaved_frame
    PyNone PyNone PyNone PyNone PyNone empty_world
  = (inl (IndexError "index out of range"),
     logged (split_call empty_split_ext small_SAMPLING interleaved_frame
               PyNone PyNone PyNone PyNone PyNone empty_world).2
       [EvPrint (PyStr "Here")]).
Proof.
  apply (empty_train_list_raises empty_split_ext small_SAMPLING MODEL_CONFIG
           interleaved_frame PyNone PyNone PyNone PyNone PyNone empty_world
           empty_split);
    vm_compute; reflexivity.
Defined.

Lemma mask_of_int_column (i : nat) (k : Z) (rows : list (list pyobj)) :
  Forall (fun r => exists z, item r i = PyInt z) rows ->
  series_le ((fun r => item r i) <$> rows) (PyInt k) = inr (keeps i k <$> rows).
Proof.
  unfold series_le. intros Hrows.
  assert (mapM (M := option) (fun c => num_le c (PyInt k))
            ((fun r => item r i) <$> rows) = Some (keeps i k <$> rows)) as ->;
    [|done].
  induction Hrows as [|r rows [z Hz] _ IH]; [done|].
  cbn [fmap list_fmap mapM]. rewrite IH. unfold keeps. rewrite Hz.
  cbn. unfold Qle_bool; cbn. by rewrite !Z.mul_1_r.
Qed.

Lemma select_rows_filter (f : list pyobj -> bool) (rows : list (list pyobj)) :
  select_rows (f <$> rows) rows = List.filter f rows.
Proof.
  induction rows as [|r rows IH]; [done|]. cbn. rewrite IH. by destruct (f r).
Qed.

(** X11: on a frame whose Structure column holds integers, [train_df] is the
    rows whose structure index is at most SPLIT_IDX, in frame order, cut
    down to the three strain columns; rows are neither reordered nor
    duplicated. *)
Theorem train_df_is_an_ordered_filter (SAMPLING : gmap string pyobj)
    (cols : list string) (rows : list (list pyobj)) (i a b c : nat) (k : Z) :
  index_of "Structure" cols = Some i ->
  index_of "Strain_Z" cols = Some a ->
  index_of "Strain_R" cols = Some b ->
  index_of "Strain_T" cols = Some c ->
  getitem SAMPLING "SPLIT_IDX" = inr (PyInt k) ->
  Forall (fun r => exists z, item r i = PyInt z) rows ->
  gnn_train_df SAMPLING (PyFrame cols rows)
  = inr (PyFrame ["Strain_Z"; "Strain_R"; "Strain_T"]
           ((fun r => [item r a; item r b; item r c])
              <$> List.filter (keeps i k) rows)).
Proof.
  intros Hi Ha Hb Hc Hk Hrows. unfold gnn_train_df, loc, column.
  rewrite Hi, Hk. cbn [mbind result_bind].
  rewrite mask_of_int_column by assumption. cbn [mbind result_bind loc_getitem].
  rewrite select_rows_filter. unfold select_cols.
  cbn [mapM mbind option_bind mret option_ret]. rewrite Ha, Hb, Hc.
  reflexivity.
Qed.

Lemma train_df_is_an_ordered_filter_witness :
  gnn_train_df SAMPLING_CONFIG boundary_frame
  = inr (PyFrame ["Strain_Z"; "Strain_R"; "Strain_T"]
           ((fun r => [item r 3; item r 4; item r 5])
              <$> List.filter (keeps 0 800)
                    [[PyInt 799; PyInt 0; PyInt 0; flt 11 10; flt 12 10; flt 13 10];
                     [PyInt 800; PyInt 0; PyInt 0; flt 21 10; flt 22 10; flt 23 10];
                     [PyInt 801; PyInt 0; PyInt 0; flt 31 10; flt 32 10; flt 33 10]])).
Proof.
  apply (train_df_is_an_ordered_filter SAMPLING_CONFIG
           ["Structure"; "x"; "z"; "Strain_Z"; "Strain_R"; "Strain_T"]
           _ 0%nat 3%nat 4%nat 5%nat 800);
    try reflexivity.
  repeat constructor; eexists; reflexivity.
Defined.

(** ** The row ranges of the FNN path *)

Lemma py_slice_app_le {A : Type} (a b : Z) (l extra : list A) :
  0 <= a -> b <= Z.of_nat (length l) ->
  py_slice a b (l ++ extra) = py_slice a b l.
Proof.
  intros Ha Hb. unfold py_slice.
  destruct (decide (a <= b)) as [Hab|Hab].
  - rewrite drop_app_le by lia. apply take_app_le. rewrite length_drop. lia.
  - by replace (Z.to_nat (b - a)) with 0%nat by lia.
Qed.

(** X12: a frame of at least 169799 rows is cut into 135520 train, 17200
    validation and 17079 test rows, and nothing past row 169799 is read:
    appending rows, or renaming columns, changes nothing of what the FNN
    path computes. *)
Theorem fnn_long_frame (sk : Sklearn) (cols cols' : list string)
    (rows extra : list (list pyobj)) :
  169799 <= Z.of_nat (length rows) ->
  Z.of_nat (length (fnn_row_partition rows).1.1) = 135520
  /\ Z.of_nat (length (fnn_row_partition rows).1.2) = 17200
  /\ Z.of_nat (length (fnn_row_partition rows).2) = 17079
  /\ fnn_data sk (PyFrame cols' (rows ++ extra)) = fnn_data sk (PyFrame cols rows).
Proof.
  intros Hlen. unfold fnn_row_partition, py_slice; cbn [fst snd].
  rewrite !length_take, !length_drop.
  split; [lia|]. split; [lia|]. split; [lia|].
  rewrite !fnn_data_frame. by rewrite !py_slice_app_le by lia.
Qed.

Lemma fnn_long_frame_witness :
  Z.of_nat (length (fnn_row_partition (uniform_rows 1000 170)).1.1) = 135520
  /\ Z.of_nat (length (fnn_row_partition (uniform_rows 1000 170)).1.2) = 17200
  /\ Z.of_nat (length (fnn_row_partition (uniform_rows 1000 170)).2) = 17079
  /\ fnn_data example_sk
       (PyFrame ["Structure"] (uniform_rows 1000 170 ++ [uniform_row 1000]))
     = fnn_data example_sk (PyFrame uniform_cols (uniform_rows 1000 170)).
Proof.
  apply (fnn_long_frame example_sk uniform_cols ["Structure"]
           (uniform_rows 1000 170) [uniform_row 1000]).
  apply Z.leb_le. vm_compute. reflexivity.
Defined.

(** X13: a frame of at most 135520 rows goes to the train range whole; the
    validation and test ranges are empty, and the scalers are handed empty
    arrays for them. *)
Theorem fnn_short_frame (sk : Sklearn) (cols : list string)
    (rows : list (list pyobj)) :
  Z.of_nat (length rows) <= 135520 ->
  fnn_row_partition rows = (rows, [], [])
  /\ fnn_data sk (PyFrame cols rows) = fnn_from_partition sk rows [] [].
Proof.
  intros Hlen.
  assert (fnn_row_partition rows = (rows, [], [])) as Hpart.
  { unfold fnn_row_partition, py_slice.
    change (Z.to_nat 0) with 0%nat. rewrite drop_0.
    rewrite (take_ge rows) by lia.
    rewrite (drop_ge rows (Z.to_nat 135520)) by lia.
    rewrite (drop_ge rows (Z.to_nat 152720)) by lia.
    by rewrite !take_nil. }
  split; [exact Hpart|].
  rewrite fnn_data_frame.
  injection Hpart as -> -> ->. reflexivity.
Qed.

Lemma fnn_short_frame_witness :
  fnn_row_partition (uniform_rows 3 2) = (uniform_rows 3 2, [], [])
  /\ fnn_data example_sk (PyFrame uniform_cols (uniform_rows 3 2))
     = fnn_from_partition example_sk (uniform_rows 3 2) [] [].
Proof.
  apply (fnn_short_frame example_sk uniform_cols (uniform_rows 3 2)).
  apply Z.leb_le. vm_compute. reflexivity.
Defined.
